(** * dx.settings: the validated configuration store, the option setter,
      the display-mode controller and the scoped override context.

    Shallow embedding of [src/dx/settings.py].  The module-level global
    [settings], the pandas option table, the IPython formatter registry and
    the [dx] logger are the components of an explicit [world] that every
    operation threads; a raised exception is the [Raise] outcome of the
    exception-state monad [M]. *)

From Stdlib Require Import ZArith QArith String Ascii List Bool Lia DecimalString.
From stdpp Require Import base decidable option list strings.

Set Warnings "-register-all".
Local Open Scope string_scope.
Local Open Scope list_scope.
Local Open Scope Z_scope.

(** ** Python values *)

(** Modelled from the spec: [dx.types.DXDisplayMode] is imported by
    [settings.py] but declared outside it; the spec gives the closed
    enumeration [plain], [simple], [enhanced], and the code names the members
    [DXDisplayMode.enhanced], [.simple], [.plain]. *)
Inductive DXDisplayMode := enhanced | simple | plain.

#[global] Instance DXDisplayMode_eq_dec : EqDecision DXDisplayMode.
Proof. solve_decision. Defined.

(** [DXDisplayMode.<m>.value] *)
Definition mode_value (m : DXDisplayMode) : string :=
  match m with
  | enhanced => "enhanced"
  | simple => "simple"
  | plain => "plain"
  end.

(** [DXDisplayMode(s)]: lookup of a member by its value. *)
Definition mode_of_value (s : string) : option DXDisplayMode :=
  if decide (s = "enhanced") then Some enhanced
  else if decide (s = "simple") then Some simple
  else if decide (s = "plain") then Some plain
  else None.

(** ** The configuration's fields *)

(** The fields of [Settings].  pydantic orders the annotated fields first and
    the one without an annotation, [LOG_LEVEL], last; this is the order of
    [vars(settings)] and of [settings.dict()]. *)
Inductive field :=
| DISPLAY_MAX_ROWS | DISPLAY_MAX_COLUMNS | HTML_TABLE_SCHEMA | MEDIA_TYPE
| MAX_RENDER_SIZE_BYTES | RENDERABLE_OBJECTS | SAMPLING_FACTOR | DISPLAY_MODE
| SAMPLING_METHOD | COLUMN_SAMPLING_METHOD | ROW_SAMPLING_METHOD | RANDOM_STATE
| RESET_INDEX_VALUES | FLATTEN_INDEX_VALUES | FLATTEN_COLUMN_VALUES
| STRINGIFY_INDEX_VALUES | STRINGIFY_COLUMN_VALUES | DATETIME_STRING_FORMAT
| ENABLE_DATALINK | LOG_LEVEL.

#[global] Instance field_eq_dec : EqDecision field.
Proof. solve_decision. Defined.

Definition all_fields : list field :=
  [DISPLAY_MAX_ROWS; DISPLAY_MAX_COLUMNS; HTML_TABLE_SCHEMA; MEDIA_TYPE;
   MAX_RENDER_SIZE_BYTES; RENDERABLE_OBJECTS; SAMPLING_FACTOR; DISPLAY_MODE;
   SAMPLING_METHOD; COLUMN_SAMPLING_METHOD; ROW_SAMPLING_METHOD; RANDOM_STATE;
   RESET_INDEX_VALUES; FLATTEN_INDEX_VALUES; FLATTEN_COLUMN_VALUES;
   STRINGIFY_INDEX_VALUES; STRINGIFY_COLUMN_VALUES; DATETIME_STRING_FORMAT;
   ENABLE_DATALINK; LOG_LEVEL].

Definition field_name (f : field) : string :=
  match f with
  | DISPLAY_MAX_ROWS => "DISPLAY_MAX_ROWS"
  | DISPLAY_MAX_COLUMNS => "DISPLAY_MAX_COLUMNS"
  | HTML_TABLE_SCHEMA => "HTML_TABLE_SCHEMA"
  | MEDIA_TYPE => "MEDIA_TYPE"
  | MAX_RENDER_SIZE_BYTES => "MAX_RENDER_SIZE_BYTES"
  | RENDERABLE_OBJECTS => "RENDERABLE_OBJECTS"
  | SAMPLING_FACTOR => "SAMPLING_FACTOR"
  | DISPLAY_MODE => "DISPLAY_MODE"
  | SAMPLING_METHOD => "SAMPLING_METHOD"
  | COLUMN_SAMPLING_METHOD => "COLUMN_SAMPLING_METHOD"
  | ROW_SAMPLING_METHOD => "ROW_SAMPLING_METHOD"
  | RANDOM_STATE => "RANDOM_STATE"
  | RESET_INDEX_VALUES => "RESET_INDEX_VALUES"
  | FLATTEN_INDEX_VALUES => "FLATTEN_INDEX_VALUES"
  | FLATTEN_COLUMN_VALUES => "FLATTEN_COLUMN_VALUES"
  | STRINGIFY_INDEX_VALUES => "STRINGIFY_INDEX_VALUES"
  | STRINGIFY_COLUMN_VALUES => "STRINGIFY_COLUMN_VALUES"
  | DATETIME_STRING_FORMAT => "DATETIME_STRING_FORMAT"
  | ENABLE_DATALINK => "ENABLE_DATALINK"
  | LOG_LEVEL => "LOG_LEVEL"
  end.

(** ** The Python runtime *)

(** What [settings.py] gets from the Python runtime and from [dx.types]
    without fixing it: floating-point numbers and their conversions, the
    parsing of integer literals by [int(str)], the members of
    [DXSamplingMethod], what [str()] returns on an enumeration member (it
    depends on how the enumeration class is declared), and the methods
    [upper], [lower] and [split] of [str], which follow Unicode on the text
    that a [string] encodes.  Of [upper] two facts are used: upper-casing
    twice is upper-casing once, and the names of the fields, capital ASCII
    letters and underscores, are their own upper case. *)
Class PyRuntime := {
  pyfloat : Type;
  float_neg : pyfloat -> bool;               (* x < 0 *)
  float_eqb : pyfloat -> pyfloat -> bool;    (* x == y *)
  float_eq_int : pyfloat -> Z -> bool;       (* x == n *)
  int_of_float : pyfloat -> option Z;        (* int(x); None when it raises *)
  float_of_int : Z -> option pyfloat;        (* float(n) *)
  float_of_str : string -> option pyfloat;   (* float(s) *)
  str_of_float : pyfloat -> string;          (* str(x) *)
  int_of_str : string -> option Z;           (* int(s) *)
  DXSamplingMethod : Type;
  DXSamplingMethod_eqb : DXSamplingMethod -> DXSamplingMethod -> bool;
  sampling_of_value : string -> option DXSamplingMethod; (* DXSamplingMethod(s) *)
  sampling_str : DXSamplingMethod -> string; (* str(member) *)
  mode_str : DXDisplayMode -> string;        (* str(member) *)
  upper : string -> string;                  (* s.upper() *)
  lower : string -> string;                  (* s.lower() *)
  split : string -> list string;             (* s.split() *)
  upper_idem : forall s, upper (upper s) = upper s;
  upper_field_name : forall f, upper (field_name f) = field_name f;
}.

Section Model.
Context `{RT : PyRuntime}.

(** The Python objects that reach the configuration.  A [type] object is
    identified by its qualified name; a [set] is the list of its elements in
    iteration order. *)
Inductive pyval :=
| PNone
| PBool (b : bool)
| PInt (z : Z)
| PFloat (x : pyfloat)
| PStr (s : string)
| PMode (m : DXDisplayMode)
| PSampling (m : DXSamplingMethod)
| PType (name : string)
| PList (l : list pyval)
| PSet (l : list pyval).

(** [bool(v)] *)
Definition py_truthy (v : pyval) : bool :=
  match v with
  | PNone => false
  | PBool b => b
  | PInt z => negb (z =? 0)
  | PFloat x => negb (float_eq_int x 0)
  | PStr s => negb (String.eqb s "")
  | PMode _ | PSampling _ | PType _ => true
  | PList l | PSet l => match l with [] => false | _ => true end
  end.

(** [hash(v)] raises [TypeError] on lists and sets. *)
Definition hashable (v : pyval) : bool :=
  match v with
  | PList _ | PSet _ => false
  | _ => true
  end.

(** [a == b] on hashable values: numbers compare across [bool], [int] and
    [float]; enumeration members and types compare by identity. *)
Definition py_eqb (a b : pyval) : bool :=
  match a, b with
  | PNone, PNone => true
  | PBool x, PBool y => Bool.eqb x y
  | PBool x, PInt y | PInt y, PBool x => Z.b2z x =? y
  | PInt x, PInt y => x =? y
  | PBool x, PFloat y | PFloat y, PBool x => float_eq_int y (Z.b2z x)
  | PInt x, PFloat y | PFloat y, PInt x => float_eq_int y x
  | PFloat x, PFloat y => float_eqb x y
  | PStr s, PStr t => String.eqb s t
  | PMode m, PMode n => bool_decide (m = n)
  | PSampling m, PSampling n => DXSamplingMethod_eqb m n
  | PType s, PType t => String.eqb s t
  | _, _ => false
  end.

(** [s.add(x)] on a set whose elements are [s]. *)
Definition set_add (x : pyval) (s : list pyval) : list pyval :=
  if existsb (py_eqb x) s then s else s ++ [x].

(** [str(n)] for an integer. *)
Definition str_of_int (z : Z) : string := NilZero.string_of_int (Z.to_int z).

(** [str(v)] for the values that can be an element of a set or the argument
    of a validator; the [repr] of a container is not modelled. *)
Definition py_str (v : pyval) : option string :=
  match v with
  | PNone => Some "None"
  | PBool true => Some "True"
  | PBool false => Some "False"
  | PInt z => Some (str_of_int z)
  | PFloat x => Some (str_of_float x)
  | PStr s => Some s
  | PMode m => Some (mode_str m)
  | PSampling m => Some (sampling_str m)
  | PType n => Some ("<class '" ++ n ++ "'>")%string
  | PList _ | PSet _ => None
  end.

(** [eval(s)] in the namespace of [settings.py]: the value of the expression,
    or [None] when evaluation raises. *)
Class PyEval := py_eval : string -> option pyval.
Context `{EV : PyEval}.

(** ** Strings *)

(** [s.replace(",", "")] *)
Fixpoint remove_commas (s : string) : string :=
  match s with
  | EmptyString => EmptyString
  | String c s' =>
      if Ascii.eqb c "," then remove_commas s' else String c (remove_commas s')
  end.

(** ** The configuration *)

(** [key in vars(settings)], with the field found. *)
Definition field_of_name (key : string) : option field :=
  find (fun f => String.eqb (field_name f) key) all_fields.

(** The declared type of a field. *)
Inductive ftype := TInt | TBool | TStr | TFloat | TMode | TSampling | TTypeSet.

Definition field_type (f : field) : ftype :=
  match f with
  | DISPLAY_MAX_ROWS | DISPLAY_MAX_COLUMNS | MAX_RENDER_SIZE_BYTES
  | RANDOM_STATE | LOG_LEVEL => TInt
  | HTML_TABLE_SCHEMA | RESET_INDEX_VALUES | FLATTEN_INDEX_VALUES
  | FLATTEN_COLUMN_VALUES | STRINGIFY_INDEX_VALUES | STRINGIFY_COLUMN_VALUES
  | ENABLE_DATALINK => TBool
  | MEDIA_TYPE | DATETIME_STRING_FORMAT => TStr
  | SAMPLING_FACTOR => TFloat
  | DISPLAY_MODE => TMode
  | SAMPLING_METHOD | COLUMN_SAMPLING_METHOD | ROW_SAMPLING_METHOD => TSampling
  | RENDERABLE_OBJECTS => TTypeSet
  end.

(** [vars(settings)]: the value of every declared field. *)
Definition Settings := field -> pyval.

(** [object.__setattr__]: the store itself, after validation. *)
Definition store (f : field) (v : pyval) (s : Settings) : Settings :=
  fun g => if decide (g = f) then v else s g.

(** [settings.dict()]: a fresh mapping, in field order; a set is copied. *)
Definition dict (s : Settings) : list (string * pyval) :=
  map (fun f => (field_name f, s f)) all_fields.

(** ** The world *)

(** The pandas options that the configuration mirrors. *)
Inductive pd_key := display_max_rows | display_max_columns | html_table_schema.

#[global] Instance pd_key_eq_dec : EqDecision pd_key.
Proof. solve_decision. Defined.

(** The three calls into [dx.formatters]. *)
Inductive formatter_call := register | deregister | reset.

Record world := {
  settings : Settings;                  (* the global [settings] *)
  pandas : pd_key -> pyval;             (* pandas' option table *)
  formatters : list formatter_call;     (* the calls made so far, oldest first *)
  dx_log_level : pyval;                 (* logging.getLogger("dx").level *)
}.

Definition with_settings (s : Settings) (w : world) : world :=
  {| settings := s; pandas := pandas w; formatters := formatters w;
     dx_log_level := dx_log_level w |}.

Definition with_pandas (k : pd_key) (v : pyval) (w : world) : world :=
  {| settings := settings w;
     pandas := fun k' => if decide (k' = k) then v else pandas w k';
     formatters := formatters w; dx_log_level := dx_log_level w |}.

Definition with_call (c : formatter_call) (w : world) : world :=
  {| settings := settings w; pandas := pandas w;
     formatters := formatters w ++ [c]; dx_log_level := dx_log_level w |}.

Definition with_log_level (v : pyval) (w : world) : world :=
  {| settings := settings w; pandas := pandas w; formatters := formatters w;
     dx_log_level := v |}.

(** ** Exceptions *)

(** Why pydantic rejected an assignment. *)
Inductive reason :=
| MustBeNonNegative          (* ValueError("<FIELD> must be >= 0") *)
| CantEvaluate (val : pyval) (* ValueError("can't evaluate {val} type as renderable object: ...") *)
| RaisedTypeError            (* a TypeError raised inside the validator *)
| EngineRejected             (* pandas refused the value inside the validator *)
| NotOfType.                 (* the value cannot be coerced to the declared type *)

Inductive exn :=
| ValidationError (f : field) (r : reason)  (* pydantic.ValidationError *)
| UnknownSetting (key : string)        (* ValueError("`{key}` is not a valid setting") *)
| UnsupportedDisplayMode (mode : pyval) (* ValueError("`{mode}` is not a supported display mode") *)
| PandasError (k : pd_key) (v : pyval) (* pandas refused the value outside a validator *)
| LoggingError (v : pyval)             (* logging refused the level *)
| PyTypeError                          (* TypeError outside a validator *)
| PyAttributeError                     (* AttributeError *)
| BodyError (tag : Z).                 (* whatever the caller's code raises *)

Inductive result (A : Type) :=
| Ok (a : A)
| Raise (e : exn).
Arguments Ok {A} a.
Arguments Raise {A} e.

(** Computations on the world that return or raise. *)
Definition M (A : Type) : Type := world -> result A * world.

Definition ret {A} (a : A) : M A := fun w => (Ok a, w).
Definition raise {A} (e : exn) : M A := fun w => (Raise e, w).
Definition bind {A B} (m : M A) (k : A -> M B) : M B :=
  fun w => match m w with
           | (Ok a, w') => k a w'
           | (Raise e, w') => (Raise e, w')
           end.

(** [try: m finally: h]: [h] runs however [m] ends; an exception of [h]
    replaces the outcome of [m]. *)
Definition try_finally {A} (m : M A) (h : M unit) : M A :=
  fun w => match m w with
           | (r, w') => match h w' with
                        | (Ok _, w'') => (r, w'')
                        | (Raise e, w'') => (Raise e, w'')
                        end
           end.

Notation "'let!' x := m 'in' k" := (bind m (fun x => k))
  (at level 10, x name, m at level 100, k at level 200).
Notation "'run' m ; k" := (bind m (fun _ => k))
  (at level 10, m at level 100, k at level 200).

(** ** The external display engine and logger *)

(** pandas checks the value of an option when it is set: the row and column
    limits take [None] or a non-negative [int] (a [bool] is an [int]), the
    table-schema flag takes a [bool]. *)
Definition pd_accepts (k : pd_key) (v : pyval) : bool :=
  match k, v with
  | (display_max_rows | display_max_columns), (PNone | PBool _) => true
  | (display_max_rows | display_max_columns), PInt z => 0 <=? z
  | html_table_schema, PBool _ => true
  | _, _ => false
  end.

(** [pd.set_option(k, v)]; [None] when pandas raises [ValueError]. *)
Definition pd_set_option (k : pd_key) (v : pyval) (w : world) : option world :=
  if pd_accepts k v then Some (with_pandas k v w) else None.

(** [logging._nameToLevel] *)
Definition level_of_name (s : string) : option Z :=
  if decide (s = "CRITICAL") then Some 50
  else if decide (s = "FATAL") then Some 50
  else if decide (s = "ERROR") then Some 40
  else if decide (s = "WARN") then Some 30
  else if decide (s = "WARNING") then Some 30
  else if decide (s = "INFO") then Some 20
  else if decide (s = "DEBUG") then Some 10
  else if decide (s = "NOTSET") then Some 0
  else None.

Definition set_log_level (level : pyval) : M unit := fun w =>
  match level with
  | PInt _ | PBool _ => (Ok tt, with_log_level level w)
  | PStr s => match level_of_name s with
              | Some z => (Ok tt, with_log_level (PInt z) w)
              | None => (Raise (LoggingError level), w)
              end
  | _ => (Raise (LoggingError level), w)
  end.

(** ** The validators of [Settings] *)

(** A validator returns the value to store or raises; pydantic catches what
    it raises and reports it as a [ValidationError] of the field. *)
Definition V : Type := world -> (pyval + reason) * world.

(** [val < 0]; [None] when the comparison raises [TypeError]. *)
Definition lt0 (val : pyval) : option bool :=
  match val with
  | PBool _ => Some false
  | PInt z => Some (z <? 0)
  | PFloat x => Some (float_neg x)
  | _ => None
  end.

(** [pd.set_option(k, val); return val] *)
Definition push_and_return (k : pd_key) (val : pyval) : V := fun w =>
  match pd_set_option k val w with
  | Some w' => (inl val, w')
  | None => (inr EngineRejected, w)
  end.

Definition validate_display_max_columns (val : pyval) : V := fun w =>
  match lt0 val with
  | None => (inr RaisedTypeError, w)
  | Some true => (inr MustBeNonNegative, w)
  | Some false => push_and_return display_max_columns val w
  end.

Definition validate_display_max_rows (val : pyval) : V := fun w =>
  match lt0 val with
  | None => (inr RaisedTypeError, w)
  | Some true => (inr MustBeNonNegative, w)
  | Some false => push_and_return display_max_rows val w
  end.

Definition validate_html_table_schema (val : pyval) : V :=
  push_and_return html_table_schema val.

(** The loop of [validate_renderables] over the elements [vals], with the
    set [valid_vals] built so far. *)
Fixpoint renderables_loop (vals valid_vals : list pyval) : list pyval + reason :=
  match vals with
  | [] => inl valid_vals
  | val :: rest =>
      match val with
      | PType _ => renderables_loop rest (set_add val valid_vals)
      | _ =>
          match py_str val ≫= py_eval with
          | Some val_type =>
              if hashable val_type
              then renderables_loop rest (set_add val_type valid_vals)
              else inr (CantEvaluate val)
          | None => inr (CantEvaluate val)
          end
      end
  end.

Definition validate_renderables (vals : pyval) : pyval + reason :=
  let vals := match vals with
              | PStr s => PList (map PStr (split (remove_commas s)))
              | _ => vals
              end in
  match vals with
  | PSet l => sum_map PSet id (renderables_loop l [])
  | _ =>
      (* vals = {vals} *)
      if hashable vals
      then sum_map PSet id (renderables_loop [vals] [])
      else inr RaisedTypeError
  end.

(** The [pre=True] validator of a field, if it has one. *)
Definition pre_validate (f : field) (val : pyval) : V :=
  match f with
  | RENDERABLE_OBJECTS => fun w => (validate_renderables val, w)
  | DISPLAY_MAX_COLUMNS => validate_display_max_columns val
  | DISPLAY_MAX_ROWS => validate_display_max_rows val
  | HTML_TABLE_SCHEMA => validate_html_table_schema val
  | _ => fun w => (inl val, w)
  end.

(** ** pydantic's validation of a value against the declared type *)

Definition is_type (v : pyval) : bool :=
  match v with PType _ => true | _ => false end.

(** [set(l)] *)
Definition to_set (l : list pyval) : list pyval :=
  fold_left (fun acc x => set_add x acc) l [].

Definition bool_of_str (s : string) : option bool :=
  let s := lower s in
  if existsb (String.eqb s) ["1"; "on"; "t"; "true"; "y"; "yes"] then Some true
  else if existsb (String.eqb s) ["0"; "off"; "f"; "false"; "n"; "no"] then Some false
  else None.

Definition coerce (t : ftype) (v : pyval) : option pyval :=
  match t, v with
  | TInt, PInt z => Some (PInt z)
  | TInt, PBool b => Some (PInt (Z.b2z b))
  | TInt, PFloat x => PInt <$> int_of_float x
  | TInt, PStr s => PInt <$> int_of_str s
  | TBool, PBool b => Some (PBool b)
  | TBool, PStr s => PBool <$> bool_of_str s
  | TBool, PInt z =>
      if z =? 1 then Some (PBool true)
      else if z =? 0 then Some (PBool false) else None
  | TBool, PFloat x =>
      if float_eq_int x 1 then Some (PBool true)
      else if float_eq_int x 0 then Some (PBool false) else None
  | TStr, PStr s => Some (PStr s)
  | TStr, (PInt _ | PBool _ | PFloat _) => PStr <$> py_str v
  | TFloat, PFloat x => Some (PFloat x)
  | TFloat, PInt z => PFloat <$> float_of_int z
  | TFloat, PBool b => PFloat <$> float_of_int (Z.b2z b)
  | TFloat, PStr s => PFloat <$> float_of_str s
  | TMode, PMode m => Some (PMode m)
  | TMode, PStr s => PMode <$> mode_of_value s
  | TSampling, PSampling m => Some (PSampling m)
  | TSampling, PStr s => PSampling <$> sampling_of_value s
  | TTypeSet, (PList l | PSet l) =>
      if forallb is_type l then Some (PSet (to_set l)) else None
  | _, _ => None
  end.

(** [setattr(settings, f, value)] under [validate_assignment = True]: the
    field's validators run first, then the stored dictionary is replaced;
    on an error nothing is stored. *)
Definition setattr (f : field) (value : pyval) : M unit := fun w =>
  match pre_validate f value w with
  | (inr r, w') => (Raise (ValidationError f r), w')
  | (inl v, w') =>
      match coerce (field_type f) v with
      | Some v' => (Ok tt, with_settings (store f v' (settings w')) w')
      | None => (Raise (ValidationError f NotOfType), w')
      end
  end.

(** ** What the store holds *)

(** The table [pd_options] of [set_option]. *)
Definition pd_options (f : field) : option pd_key :=
  match f with
  | DISPLAY_MAX_ROWS => Some display_max_rows
  | DISPLAY_MAX_COLUMNS => Some display_max_columns
  | HTML_TABLE_SCHEMA => Some html_table_schema
  | _ => None
  end.

(** No two elements of [l] are equal: [l] lists a set. *)
Fixpoint distinct (l : list pyval) : bool :=
  match l with
  | [] => true
  | x :: l' => negb (existsb (py_eqb x) l') && distinct l'
  end.

(** [v] is a value as the store holds it in field [f]: of the declared type,
    non-negative for the two display limits, a set of types for the
    renderable objects. *)
Definition stored_ok (f : field) (v : pyval) : bool :=
  match field_type f, v with
  | TInt, PInt z =>
      match pd_options f with Some _ => 0 <=? z | None => true end
  | TBool, PBool _ | TStr, PStr _ | TFloat, PFloat _
  | TMode, PMode _ | TSampling, PSampling _ => true
  | TTypeSet, PSet l => forallb is_type l && distinct l
  | _, _ => false
  end.

(** ** The formatters of the display modes *)

(** Modelled from the spec: [register], [deregister] and [reset] of
    [dx.formatters] are called by [set_display_mode] but declared outside
    [settings.py].  Section 4.3 of the specification has each of them
    perform one registration action on the interactive session; it is
    recorded in [formatters].  Section 4.4, like the comment in
    [settings_context], has a mode change reset other fields of the
    configuration: [mode_resets c] lists the fields that the call [c] sets,
    and to which values.  Which fields and which values is not said, so they
    are a parameter; the display mode itself is not among the fields, and
    the values are ones that the store holds. *)
Class Formatters := {
  mode_resets : formatter_call -> list (field * pyval);
  mode_resets_ok : forall c f v,
    In (f, v) (mode_resets c) -> f <> DISPLAY_MODE /\ stored_ok f v = true;
}.
Context `{FM : Formatters}.

(** ** The operations of [settings.py] *)

(** [pandas_set_option(k, value)], as [set_option] calls it. *)
Definition pandas_set_option (k : pd_key) (value : pyval) : M unit := fun w =>
  match pd_set_option k value w with
  | Some w' => (Ok tt, w')
  | None => (Raise (PandasError k value), w)
  end.

(** Modelled from the spec: one field set by a formatter.  The
    specification has every mutation go through the option setter: the field
    is assigned, the pandas option that mirrors it is set, and the logger
    follows the log level, as in [set_option] on a field other than the
    display mode. *)
Definition reset_option (f : field) (value : pyval) : M unit :=
  run (setattr f value);
  run (match pd_options f with
       | Some k => pandas_set_option k value
       | None => ret tt
       end);
  if bool_decide (f = LOG_LEVEL) then set_log_level value else ret tt.

Fixpoint reset_options (l : list (field * pyval)) : M unit :=
  match l with
  | [] => ret tt
  | (f, v) :: l' => run (reset_option f v); reset_options l'
  end.

(** Modelled from the spec: one call of [register], [deregister] or [reset]:
    the call is made on the session's formatter registry, then the formatter
    sets the fields that its mode resets. *)
Definition call (c : formatter_call) : M unit := fun w =>
  reset_options (mode_resets c) (with_call c w).

Definition set_display_mode (mode : pyval) : M unit :=
  run (setattr DISPLAY_MODE mode);
  let str_mode := py_str mode in
  if bool_decide (str_mode = Some (mode_value enhanced)) then call register
  else if bool_decide (str_mode = Some (mode_value simple)) then call deregister
  else if bool_decide (str_mode = Some (mode_value plain)) then call reset
  else raise (UnsupportedDisplayMode mode).

Definition set_option (key : string) (value : pyval) : M unit :=
  let key := upper key in
  match field_of_name key with
  | Some f =>
      run (setattr f value);
      run (match pd_options f with
           | Some k => pandas_set_option k value
           | None => ret tt
           end);
      run (if bool_decide (f = DISPLAY_MODE) then set_display_mode value else ret tt);
      if bool_decide (f = LOG_LEVEL) then set_log_level value else ret tt
  | None => raise (UnknownSetting key)
  end.

(** [for setting, value in d.items(): set_option(setting, value)] *)
Fixpoint set_options (d : list (string * pyval)) : M unit :=
  match d with
  | [] => ret tt
  | (setting, value) :: d' => run (set_option setting value); set_options d'
  end.

(** [d[k] = v] on a dictionary kept in insertion order. *)
Fixpoint dict_set (k : string) (v : pyval) (d : list (string * pyval))
  : list (string * pyval) :=
  match d with
  | [] => [(k, v)]
  | (k', v') :: d' =>
      if String.eqb k' k then (k', v) :: d' else (k', v') :: dict_set k v d'
  end.

(** [{str(k).upper(): v for k, v in option_kwargs.items()}] *)
Definition upper_keys (option_kwargs : list (string * pyval))
  : list (string * pyval) :=
  fold_left (fun d kv => dict_set (upper (fst kv)) (snd kv) d) option_kwargs [].

Definition dict_get (k : string) (d : list (string * pyval)) : option pyval :=
  snd <$> find (fun kv => String.eqb (fst kv) k) d.

Definition dict_del (k : string) (d : list (string * pyval))
  : list (string * pyval) :=
  List.filter (fun kv => negb (String.eqb (fst kv) k)) d.

(** The context manager [settings_context], entered with the keyword
    arguments [option_kwargs], around the caller's block [body]: what runs from entering the [with] statement to
    leaving it. *)
Definition settings_context (option_kwargs : list (string * pyval))
    (body : M unit) : M unit := fun w =>
  let orig_settings := dict (settings w) in
  let option_kwargs := upper_keys option_kwargs in
  (* display_mode := option_kwargs.pop("DISPLAY_MODE", None) *)
  let display_mode := default PNone (dict_get "DISPLAY_MODE" option_kwargs) in
  let option_kwargs := dict_del "DISPLAY_MODE" option_kwargs in
  (run (if py_truthy display_mode then set_display_mode display_mode else ret tt);
   try_finally
     (run (set_options option_kwargs); body)
     (set_options orig_settings)) w.

(** [s.update(l)]: the elements are added one at a time, so the ones before
    an unhashable element stay in the set. *)
Fixpoint set_update (l s : list pyval) : result unit * list pyval :=
  match l with
  | [] => (Ok tt, s)
  | x :: l' => if hashable x then set_update l' (set_add x s)
               else (Raise PyTypeError, s)
  end.

Definition add_renderable_type (renderable_type : pyval) : M unit := fun w =>
  let renderable_type := match renderable_type with
                         | PList l => l
                         | _ => [renderable_type]
                         end in
  match settings w RENDERABLE_OBJECTS with
  | PSet s =>
      let '(r, s') := set_update renderable_type s in
      (r, with_settings (store RENDERABLE_OBJECTS (PSet s') (settings w)) w)
  | _ => (Raise PyAttributeError, w)
  end.

(** ** Valid configurations and the effects of a successful assignment *)

Definition valid (s : Settings) : bool :=
  forallb (fun f => stored_ok f (s f)) all_fields.

(** The field that a pandas option mirrors. *)
Definition pd_field (k : pd_key) : field :=
  match k with
  | display_max_rows => DISPLAY_MAX_ROWS
  | display_max_columns => DISPLAY_MAX_COLUMNS
  | html_table_schema => HTML_TABLE_SCHEMA
  end.

(** pandas holds the value of each field it mirrors. *)
Definition mirrored (w : world) : Prop :=
  forall k, pandas w k = settings w (pd_field k).

(** The formatter call that belongs to a display mode. *)
Definition mode_call (m : DXDisplayMode) : formatter_call :=
  match m with
  | enhanced => register
  | simple => deregister
  | plain => reset
  end.

(** The fields that [settings.dict()] lists before the display mode, and
    those it lists after. *)
Definition fields_before_mode : list field :=
  [DISPLAY_MAX_ROWS; DISPLAY_MAX_COLUMNS; HTML_TABLE_SCHEMA; MEDIA_TYPE;
   MAX_RENDER_SIZE_BYTES; RENDERABLE_OBJECTS; SAMPLING_FACTOR].

Definition fields_after_mode : list field :=
  [SAMPLING_METHOD; COLUMN_SAMPLING_METHOD; ROW_SAMPLING_METHOD; RANDOM_STATE;
   RESET_INDEX_VALUES; FLATTEN_INDEX_VALUES; FLATTEN_COLUMN_VALUES;
   STRINGIFY_INDEX_VALUES; STRINGIFY_COLUMN_VALUES; DATETIME_STRING_FORMAT;
   ENABLE_DATALINK; LOG_LEVEL].

(** The value that the assignments [l], made in order, leave in the field
    [g], if one of them sets it: the value of the last one that does. *)
Fixpoint last_reset (l : list (field * pyval)) (g : field) : option pyval :=
  match l with
  | [] => None
  | (f, v) :: l' =>
      match last_reset l' g with
      | Some v' => Some v'
      | None => if decide (f = g) then Some v else None
      end
  end.

(** The configuration [s] after the assignments [l]. *)
Definition after_resets (l : list (field * pyval)) (s : Settings) : Settings :=
  fun g => default (s g) (last_reset l g).

(** The configuration that the restoring loop of [settings_context] leaves,
    from the snapshot [s0] whose display mode is [m]: the loop follows the
    order of [settings.dict()], so a field listed before the display mode is
    restored and then reset by the formatter of [m], if that formatter
    resets it; every other field holds its snapshot value. *)
Definition exit_settings (s0 : Settings) (m : DXDisplayMode) : Settings :=
  fun g =>
    if bool_decide (g ∈ fields_before_mode)
    then after_resets (mode_resets (mode_call m)) s0 g
    else s0 g.

(** The display mode that a value names: a member or a member's value. *)
Definition as_mode (v : pyval) : option DXDisplayMode :=
  match v with
  | PMode m => Some m
  | PStr s => mode_of_value s
  | _ => None
  end.

(** The display-mode override of the keyword arguments is truthy and names
    no display mode: [set_display_mode] refuses it before the [try]. *)
Definition refused_on_entry (option_kwargs : list (string * pyval)) : bool :=
  let display_mode :=
    default PNone (dict_get "DISPLAY_MODE" (upper_keys option_kwargs)) in
  py_truthy display_mode && negb (bool_decide (is_Some (as_mode display_mode))).

(** [str()] of a display mode is its value, as the comparisons
    [str(mode) == DXDisplayMode.enhanced.value] of [set_display_mode] on its
    default argument [DXDisplayMode.simple] take for granted. *)
Definition str_is_value : Prop := forall m, mode_str m = mode_value m.

(** ** The scoped override as the specification words it *)

(** An override with its key in canonical form. *)
Definition normalize (kv : string * pyval) : string * pyval :=
  (upper (fst kv), snd kv).

(** The overrides other than the display mode, in the order supplied. *)
Definition other_overrides (option_kwargs : list (string * pyval))
  : list (string * pyval) :=
  List.filter (fun kv => negb (String.eqb (upper (fst kv)) "DISPLAY_MODE"))
         option_kwargs.

(** Section 4.4 of the specification, for a mapping that binds the display
    mode to [display_mode]: the mode goes through the mode controller first,
    then every other override goes through the option setter in the order
    supplied, then the block runs, and the snapshot is re-applied however
    the block ends. *)
Definition mode_first (option_kwargs : list (string * pyval))
    (display_mode : pyval) (body : M unit) : M unit := fun w =>
  (run (set_display_mode display_mode);
   try_finally
     (run (set_options (other_overrides option_kwargs)); body)
     (set_options (dict (settings w)))) w.

(** The batch that [settings_context] loops over. *)
Definition remaining_batch (option_kwargs : list (string * pyval))
  : list (string * pyval) :=
  dict_del "DISPLAY_MODE" (upper_keys option_kwargs).

(** ** Notions used to state what the operations do *)

(** What [settings_context] runs before its [finally] clause: the display
    mode, the other overrides, then the caller's block. *)
Definition scope_block (option_kwargs : list (string * pyval))
    (body : M unit) : M unit :=
  let kw := upper_keys option_kwargs in
  let display_mode := default PNone (dict_get "DISPLAY_MODE" kw) in
  run (if py_truthy display_mode then set_display_mode display_mode else ret tt);
  run (set_options (dict_del "DISPLAY_MODE" kw));
  body.

(** The value that the keyword arguments bind to the canonical key [k]: the
    one of the last argument whose name upper-cases to [k]. *)
Definition last_binding (k : string) (option_kwargs : list (string * pyval))
  : option pyval :=
  snd <$> last (List.filter (fun kv => String.eqb (upper (fst kv)) k)
                            option_kwargs).

(** The object that an element of the renderable objects stands for: a type
    is itself, anything else is what [eval(str(val))] gives, if it gives a
    hashable object. *)
Definition resolve (val : pyval) : option pyval :=
  match val with
  | PType _ => Some val
  | _ => match py_str val ≫= py_eval with
         | Some t => if hashable t then Some t else None
         | None => None
         end
  end.

End Model.

Arguments Ok {RT A} a.
Arguments Raise {RT A} e.

Notation "'let!' x := m 'in' k" := (bind m (fun x => k))
  (at level 10, x name, m at level 100, k at level 200).
Notation "'run' m ; k" := (bind m (fun _ => k))
  (at level 10, m at level 100, k at level 200).

(** ** A runtime to compute with

    Floats are the rationals they denote and [DXSamplingMethod] has the one
    member [random] that the defaults of [Settings] name.  [eval] knows the
    names of a few builtin types and decimal literals.  [str()] of a display
    mode is a parameter: [runtime] takes it to be the mode's value,
    [plain_enum] takes the text that a bare [enum.Enum] prints.  The string
    methods are those of ASCII text.  The formatters set the three fields
    that pandas mirrors: the [enhanced] and [simple] formatters to limits of
    their own, the [plain] formatter to the defaults of [Settings]; the
    values are picked for the runs. *)
Module Demo.

Definition parse_int (s : string) : option Z :=
  Z.of_int <$> NilZero.int_of_string s.

Definition upper_ascii (c : ascii) : ascii :=
  let n := N_of_ascii c in
  if ((97 <=? n) && (n <=? 122))%N then ascii_of_N (n - 32) else c.

Definition lower_ascii (c : ascii) : ascii :=
  let n := N_of_ascii c in
  if ((65 <=? n) && (n <=? 90))%N then ascii_of_N (n + 32) else c.

Fixpoint map_string (f : ascii -> ascii) (s : string) : string :=
  match s with
  | EmptyString => EmptyString
  | String c s' => String (f c) (map_string f s')
  end.

(** [s.upper()] and [s.lower()] on ASCII text. *)
Definition ascii_upper (s : string) : string := map_string upper_ascii s.
Definition ascii_lower (s : string) : string := map_string lower_ascii s.

Definition is_space (c : ascii) : bool :=
  let n := N_of_ascii c in
  (((9 <=? n) && (n <=? 13)) || ((28 <=? n) && (n <=? 32)))%N.

(** [s.split()] on ASCII text: the maximal runs of characters that are not
    whitespace; [cur] is the run being read, reversed. *)
Fixpoint split_ws (cur : list ascii) (s : string) : list string :=
  let flush := match cur with
               | [] => []
               | _ => [string_of_list_ascii (rev cur)]
               end in
  match s with
  | EmptyString => flush
  | String c s' =>
      if is_space c then flush ++ split_ws [] s' else split_ws (c :: cur) s'
  end.

Definition ascii_split (s : string) : list string := split_ws [] s.

Definition make_runtime (mstr : DXDisplayMode -> string) : PyRuntime.
Proof.
  refine {|
    pyfloat := Q;
    float_neg x := (Qnum x <? 0);
    float_eqb x y := Qeq_bool x y;
    float_eq_int x n := Qeq_bool x (inject_Z n);
    int_of_float x := Some (Z.quot (Qnum x) (Z.pos (Qden x)));
    float_of_int n := Some (inject_Z n);
    float_of_str _ := None;
    str_of_float x :=
      (NilZero.string_of_int (Z.to_int (Qnum x)) ++ "/"
       ++ NilZero.string_of_int (Z.to_int (Z.pos (Qden x))))%string;
    int_of_str := parse_int;
    DXSamplingMethod := unit;
    DXSamplingMethod_eqb _ _ := true;
    sampling_of_value s := if decide (s = "random") then Some tt else None;
    sampling_str _ := "random";
    mode_str := mstr;
    upper := ascii_upper;
    lower := ascii_lower;
    split := ascii_split;
    upper_idem := _;
    upper_field_name := _;
  |}.
  - intros s. induction s as [|c s IH]; [reflexivity|].
    unfold ascii_upper in *. cbn [map_string]. rewrite IH. f_equal.
    destruct c as [[] [] [] [] [] [] [] []]; reflexivity.
  - intros f. destruct f; reflexivity.
Defined.

Definition make_eval (mstr : DXDisplayMode -> string)
  : @PyEval (make_runtime mstr) := fun s =>
  if existsb (String.eqb s) ["int"; "str"; "float"; "bool"; "list"; "dict"]
  then Some (@PType (make_runtime mstr) s)
  else @PInt (make_runtime mstr) <$> parse_int s.

(** The defaults of [Settings]. *)
Definition defaults_of (mstr : DXDisplayMode -> string)
  : @Settings (make_runtime mstr) := fun f =>
  match f with
  | LOG_LEVEL => PInt 30
  | DISPLAY_MAX_ROWS => PInt 60
  | DISPLAY_MAX_COLUMNS => PInt 20
  | HTML_TABLE_SCHEMA => PBool false
  | MEDIA_TYPE => PStr "application/vnd.dataresource+json"
  | MAX_RENDER_SIZE_BYTES => PInt (100 * (1024 * 1024))
  | RENDERABLE_OBJECTS => PSet []
  | SAMPLING_FACTOR => @PFloat (make_runtime mstr) (1 # 10)
  | DISPLAY_MODE => PMode simple
  | SAMPLING_METHOD | COLUMN_SAMPLING_METHOD | ROW_SAMPLING_METHOD =>
      @PSampling (make_runtime mstr) tt
  | RANDOM_STATE => PInt 12648430
  | RESET_INDEX_VALUES | FLATTEN_INDEX_VALUES | FLATTEN_COLUMN_VALUES
  | STRINGIFY_INDEX_VALUES | STRINGIFY_COLUMN_VALUES | ENABLE_DATALINK => PBool false
  | DATETIME_STRING_FORMAT => PStr "%Y-%m-%dT%H:%M:%S.%f"
  end.

(** The world after [settings = get_settings()] in a fresh process: the
    validators have pushed the three mirrored defaults to pandas. *)
Definition fresh_of (mstr : DXDisplayMode -> string)
  : @world (make_runtime mstr) := {|
  settings := defaults_of mstr;
  pandas := fun k => match k with
                     | display_max_rows => PInt 60
                     | display_max_columns => PInt 20
                     | html_table_schema => PBool false
                     end;
  formatters := [];
  dx_log_level := PInt 0;
|}.

(** The fields that each formatter sets in the runs. *)
Definition make_formatters (mstr : DXDisplayMode -> string)
  : @Formatters (make_runtime mstr).
Proof.
  refine {|
    mode_resets c :=
      match c with
      | register | deregister =>
          [(DISPLAY_MAX_ROWS, @PInt (make_runtime mstr) 100000);
           (DISPLAY_MAX_COLUMNS, PInt 50);
           (HTML_TABLE_SCHEMA, PBool true)]
      | reset =>
          [(DISPLAY_MAX_ROWS, PInt 60);
           (DISPLAY_MAX_COLUMNS, PInt 20);
           (HTML_TABLE_SCHEMA, PBool false)]
      end;
    mode_resets_ok := _;
  |}.
  intros c f v H.
  destruct c; cbn in H; destruct H as [H|[H|[H|[]]]]; injection H as <- <-;
    (split; [discriminate|reflexivity]).
Defined.

(** [str(DXDisplayMode.simple)] for a bare [enum.Enum]. *)
Definition enum_repr (m : DXDisplayMode) : string :=
  ("DXDisplayMode." ++ mode_value m)%string.

#[export] Instance runtime : PyRuntime := make_runtime mode_value.
#[export] Instance eval : PyEval := make_eval mode_value.
#[export] Instance formatters_of_runs : Formatters := make_formatters mode_value.
Definition fresh : world := fresh_of mode_value.

(** Keyword arguments and blocks for the examples. *)
Definition rows_5 : list (string * pyval) := [("display_max_rows", PInt 5)].
Definition none_mode_rows_5 : list (string * pyval) :=
  [("display_mode", PNone); ("display_max_rows", PInt 5)].
Definition enhanced_rows_5 : list (string * pyval) :=
  [("display_mode", PStr "enhanced"); ("display_max_rows", PInt 5)].
Definition failing_block : M unit := raise (BodyError 1).
Definition fresh_rows_5 : world := snd (set_option "display_max_rows" (PInt 5) fresh).
Definition fancy_mode : list (string * pyval) := [("display_mode", PStr "fancy")].
Definition raw_name_world : world :=
  snd (add_renderable_type (PList [PStr "DataFrame"]) fresh).
Definition inner_rows_7 : M unit :=
  settings_context [("DISPLAY_MAX_ROWS", PInt 7)] (ret tt).

Definition plain_enum : PyRuntime := make_runtime enum_repr.
Definition plain_enum_eval : @PyEval plain_enum := make_eval enum_repr.
Definition plain_enum_formatters : @Formatters plain_enum := make_formatters enum_repr.
Definition plain_enum_fresh : @world plain_enum := fresh_of enum_repr.

End Demo.


(** * Properties *)

Section Properties.
Context `{RT : PyRuntime}.
Context {EV : PyEval}.
Context {FM : Formatters}.

(** ** Field names *)

Lemma field_of_name_name f : field_of_name (field_name f) = Some f.
Proof. destruct f; reflexivity. Qed.

Lemma field_of_name_Some key f : field_of_name key = Some f -> key = field_name f.
Proof.
  unfold field_of_name. intros H.
  apply find_some in H as [_ H]. apply String.eqb_eq in H. congruence.
Qed.

(** ** The option setter *)

(** C3. A name that, once upper-cased, is not the name of a declared field
    makes [set_option] raise the unknown-setting error, and the world (every
    field, pandas' options, the formatter calls and the log level) is the one
    before the call. *)
Theorem set_option_unknown key value w :
  field_of_name (upper key) = None ->
  set_option key value w = (Raise (UnknownSetting (upper key)), w).
Proof.
  intros H. unfold set_option. rewrite H. reflexivity.
Qed.

(** C2. A negative integer is refused for the row maximum and for the column
    maximum: [set_option] raises the validation error "must be >= 0" of that
    field and leaves the world, hence the stored field and pandas' row and
    column limits, as it was. *)
Theorem set_option_negative key f v w :
  upper key = field_name f ->
  f = DISPLAY_MAX_ROWS \/ f = DISPLAY_MAX_COLUMNS ->
  v < 0 ->
  set_option key (PInt v) w = (Raise (ValidationError f MustBeNonNegative), w).
Proof.
  intros Hkey Hf Hv. unfold set_option. rewrite Hkey, field_of_name_name.
  apply Z.ltb_lt in Hv.
  destruct Hf as [-> | ->]; unfold bind, setattr; cbn;
    unfold validate_display_max_rows, validate_display_max_columns; cbn;
    rewrite Hv; reflexivity.
Qed.

(** C5. A non-negative integer is accepted for the row maximum and for the
    column maximum: [set_option] returns, the field holds the integer, and
    the pandas option that mirrors the field holds it too; nothing else
    changes. *)
Theorem set_option_nonnegative key f k v w :
  upper key = field_name f ->
  (f = DISPLAY_MAX_ROWS /\ k = display_max_rows) \/
  (f = DISPLAY_MAX_COLUMNS /\ k = display_max_columns) ->
  0 <= v ->
  exists w',
    set_option key (PInt v) w = (Ok tt, w') /\
    settings w' f = PInt v /\
    pandas w' k = PInt v /\
    (forall g, g <> f -> settings w' g = settings w g) /\
    (forall k', k' <> k -> pandas w' k' = pandas w k') /\
    formatters w' = formatters w /\
    dx_log_level w' = dx_log_level w.
Proof.
  intros Hkey Hk Hv. unfold set_option. rewrite Hkey, field_of_name_name.
  assert (Hlt : (v <? 0) = false) by (apply Z.ltb_ge; lia).
  assert (Hle : (0 <=? v) = true) by (apply Z.leb_le; lia).
  destruct Hk as [[-> ->] | [-> ->]];
    unfold bind, setattr; cbn;
    unfold validate_display_max_rows, validate_display_max_columns,
      push_and_return, pd_set_option, pandas_set_option, pd_set_option; cbn;
    rewrite Hlt; cbn; rewrite Hle; cbn;
    (eexists; split; [reflexivity|]); cbn;
    repeat split; try reflexivity;
    intros x Hx; unfold store; repeat case_decide; congruence.
Qed.

(** ** What an assignment leaves alone *)

Lemma pre_validate_frame f v w :
  settings (snd (pre_validate f v w)) = settings w /\
  formatters (snd (pre_validate f v w)) = formatters w /\
  dx_log_level (snd (pre_validate f v w)) = dx_log_level w.
Proof.
  destruct f; try (cbn; repeat split; reflexivity); cbn [pre_validate];
    unfold validate_display_max_rows, validate_display_max_columns,
      validate_html_table_schema;
    try (destruct (lt0 v) as [[]|]; try (cbn; repeat split; reflexivity));
    unfold push_and_return, pd_set_option;
    destruct (pd_accepts _ _); cbn; repeat split; reflexivity.
Qed.

Lemma setattr_frame f v w r w' :
  setattr f v w = (r, w') ->
  formatters w' = formatters w /\
  dx_log_level w' = dx_log_level w /\
  forall g, g <> f -> settings w' g = settings w g.
Proof.
  unfold setattr.
  destruct (pre_validate_frame f v w) as (HS & HF & HL).
  destruct (pre_validate f v w) as [[x|e] w1]; cbn in HS, HF, HL.
  - destruct (coerce (field_type f) x); intros [= <- <-]; cbn;
      rewrite ?HS; repeat split; trivial.
    intros g Hg. unfold store. now case_decide.
  - intros [= <- <-]. rewrite HS. repeat split; trivial.
Qed.

Lemma pandas_set_option_frame k v w r w' :
  pandas_set_option k v w = (r, w') ->
  formatters w' = formatters w /\ dx_log_level w' = dx_log_level w /\
  settings w' = settings w.
Proof.
  unfold pandas_set_option, pd_set_option.
  destruct (pd_accepts k v); intros [= <- <-]; repeat split; reflexivity.
Qed.

Lemma set_log_level_frame v w r w' :
  set_log_level v w = (r, w') ->
  formatters w' = formatters w /\ settings w' = settings w.
Proof.
  unfold set_log_level. destruct v; try destruct (level_of_name s);
    intros [= <- <-]; split; reflexivity.
Qed.

(** Setting any field but the display mode makes no formatter call and
    leaves the display mode as it is, whether the call returns or raises. *)
Lemma set_option_frame key value w r w' :
  field_of_name (upper key) <> Some DISPLAY_MODE ->
  set_option key value w = (r, w') ->
  formatters w' = formatters w /\
  settings w' DISPLAY_MODE = settings w DISPLAY_MODE.
Proof.
  intros Hne. unfold set_option.
  destruct (field_of_name (upper key)) as [f|]; [|intros [= <- <-]; now split].
  assert (Hf : f <> DISPLAY_MODE) by congruence.
  unfold bind.
  destruct (setattr f value w) as [[[]|e] w1] eqn:E1;
    apply setattr_frame in E1 as (F1 & _ & S1).
  2: { intros [= <- <-]. split; [exact F1|now apply S1]. }
  destruct (match pd_options f with
            | Some k => pandas_set_option k value
            | None => ret tt
            end w1) as [r2 w2] eqn:E2.
  assert (F2 : formatters w2 = formatters w1 /\ settings w2 = settings w1).
  { destruct (pd_options f).
    - apply pandas_set_option_frame in E2 as (? & ? & ?). now split.
    - injection E2 as <- <-. now split. }
  destruct F2 as [F2 S2]. destruct r2 as [[]|e].
  2: { intros [= <- <-]. rewrite F2, S2. split; [exact F1|now apply S1]. }
  rewrite (bool_decide_eq_false_2 _ Hf). cbn.
  case_bool_decide.
  - intros E3. apply set_log_level_frame in E3 as [F3 S3].
    rewrite F3, S3, F2, S2. split; [exact F1|now apply S1].
  - intros [= <- <-]. rewrite F2, S2. split; [exact F1|now apply S1].
Qed.

(** The loop over a batch that does not name the display mode. *)
Lemma set_options_frame d w r w' :
  Forall (fun kv => field_of_name (upper (fst kv)) <> Some DISPLAY_MODE) d ->
  set_options d w = (r, w') ->
  formatters w' = formatters w /\
  settings w' DISPLAY_MODE = settings w DISPLAY_MODE.
Proof.
  intros Hd. revert w. induction Hd as [|[k v] d Hk Hd IH]; intros w.
  - intros [= <- <-]. now split.
  - cbn [set_options]. unfold bind. cbn [fst] in Hk.
    destruct (set_option k v w) as [[[]|e] w1] eqn:E1;
      apply set_option_frame in E1 as [F1 S1]; trivial.
    + intros E2. apply IH in E2 as [F2 S2]. rewrite F2, S2. now split.
    + intros [= <- <-]. now split.
Qed.

(** ** The keyword arguments as a dictionary *)

Lemma dict_set_keys (Q : string -> Prop) k v d :
  Q k -> Forall (fun kv => Q (fst kv)) d ->
  Forall (fun kv => Q (fst kv)) (dict_set k v d).
Proof.
  intros Hk. induction 1 as [|[k' v'] d Hk' Hd IH]; cbn.
  - now repeat constructor.
  - destruct (String.eqb k' k); constructor; trivial.
Qed.

Lemma upper_keys_canonical option_kwargs :
  Forall (fun kv => upper (fst kv) = fst kv) (upper_keys option_kwargs).
Proof.
  unfold upper_keys.
  assert (H : Forall (fun kv : string * pyval => upper (fst kv) = fst kv) [])
    by constructor.
  revert H. generalize (@nil (string * pyval)) as acc.
  induction option_kwargs as [|[k v] kw IH]; intros acc H; cbn; [exact H|].
  apply IH. apply (dict_set_keys (fun k => upper k = k)); trivial.
  apply upper_idem.
Qed.

(** No entry of the remaining batch names the display mode. *)
Lemma remaining_batch_no_mode option_kwargs :
  Forall (fun kv => field_of_name (upper (fst kv)) <> Some DISPLAY_MODE)
         (remaining_batch option_kwargs).
Proof.
  unfold remaining_batch, dict_del. apply Forall_forall. intros [k v] Hin.
  apply list_elem_of_In, filter_In in Hin as [Hin Hne]. cbn in *.
  pose proof (upper_keys_canonical option_kwargs) as Hc.
  rewrite Forall_forall in Hc. apply list_elem_of_In, Hc in Hin. cbn in Hin.
  rewrite Hin. intros Hf. apply field_of_name_Some in Hf. subst k.
  discriminate Hne.
Qed.

Lemma dict_set_fresh k v d :
  ~ In k (map fst d) -> dict_set k v d = d ++ [(k, v)].
Proof.
  induction d as [|[k' v'] d IH]; cbn; intros Hk; [reflexivity|].
  destruct (String.eqb k' k) eqn:E.
  - apply String.eqb_eq in E. tauto.
  - rewrite IH; tauto.
Qed.

(** When no two keys agree once upper-cased, the dictionary holds the
    overrides as they were supplied. *)
Lemma upper_keys_distinct option_kwargs :
  List.NoDup (map (fun kv => upper (fst kv)) option_kwargs) ->
  upper_keys option_kwargs = map normalize option_kwargs.
Proof.
  unfold upper_keys.
  enough (H : forall acc,
    List.NoDup (map fst acc ++ map (fun kv => upper (fst kv)) option_kwargs) ->
    fold_left (fun d kv => dict_set (upper (fst kv)) (snd kv) d) option_kwargs acc
    = acc ++ map normalize option_kwargs) by (intros Hn; now apply (H [])).
  induction option_kwargs as [|[k v] kw IH]; intros acc Hn; cbn.
  - now rewrite app_nil_r.
  - cbn in Hn. rewrite dict_set_fresh.
    + rewrite IH.
      * now rewrite <- app_assoc.
      * rewrite map_app. cbn. rewrite <- app_assoc. exact Hn.
    + apply List.NoDup_remove_2 in Hn. intros Hin. apply Hn.
      apply in_or_app. now left.
Qed.

Lemma dict_del_normalize option_kwargs :
  dict_del "DISPLAY_MODE" (map normalize option_kwargs)
  = map normalize (other_overrides option_kwargs).
Proof.
  unfold dict_del, other_overrides.
  induction option_kwargs as [|[k v] kw IH]; [reflexivity|].
  cbn [map List.filter]. unfold normalize at 1. cbn [fst snd].
  destruct (String.eqb (upper k) "DISPLAY_MODE"); cbn [negb map];
    now rewrite IH.
Qed.

Lemma set_option_upper key value : set_option (upper key) value = set_option key value.
Proof. unfold set_option. now rewrite upper_idem. Qed.

Lemma set_options_normalize d : set_options (map normalize d) = set_options d.
Proof.
  induction d as [|[k v] d IH]; [reflexivity|].
  cbn. now rewrite set_option_upper, IH.
Qed.

Lemma dict_set_keys_in k v d x :
  In x (map fst (dict_set k v d)) -> x = k \/ In x (map fst d).
Proof.
  induction d as [|[k' v'] d IH]; cbn.
  - intros [<-|[]]. now left.
  - destruct (String.eqb k' k) eqn:E; cbn; [tauto|].
    intros [<-|H]; [tauto|]. apply IH in H. tauto.
Qed.

Lemma dict_set_keys_nodup k v d :
  List.NoDup (map fst d) -> List.NoDup (map fst (dict_set k v d)).
Proof.
  induction d as [|[k' v'] d IH]; cbn; intros Hn.
  - repeat constructor. intros [].
  - apply List.NoDup_cons_iff in Hn as [Hk Hn].
    destruct (String.eqb k' k) eqn:E; cbn; constructor; auto.
    intros Hin. apply dict_set_keys_in in Hin as [->|Hin]; [|tauto].
    now rewrite String.eqb_refl in E.
Qed.

Lemma upper_keys_nodup option_kwargs :
  List.NoDup (map fst (upper_keys option_kwargs)).
Proof.
  unfold upper_keys.
  assert (H : List.NoDup (map fst (@nil (string * pyval)))) by constructor.
  revert H. generalize (@nil (string * pyval)) as acc.
  induction option_kwargs as [|[k v] kw IH]; intros acc H; cbn; [exact H|].
  apply IH. now apply dict_set_keys_nodup.
Qed.

Lemma dict_del_keys_nodup k d :
  List.NoDup (map fst d) -> List.NoDup (map fst (dict_del k d)).
Proof.
  unfold dict_del. induction d as [|[k' v'] d IH]; cbn; intros Hn; [constructor|].
  apply List.NoDup_cons_iff in Hn as [Hk Hn].
  destruct (negb (String.eqb k' k)); cbn; auto.
  constructor; auto. intros Hin. apply Hk.
  apply in_map_iff in Hin as (kv & <- & Hin). apply filter_In in Hin as [Hin _].
  now apply in_map.
Qed.

Lemma dict_get_del k d : dict_get k (dict_del k d) = None.
Proof.
  unfold dict_get, dict_del. induction d as [|[k' v'] d IH]; [reflexivity|].
  cbn. destruct (String.eqb k' k) eqn:E; cbn; [exact IH|]. now rewrite E.
Qed.

Lemma dict_del_del k d : dict_del k (dict_del k d) = dict_del k d.
Proof.
  unfold dict_del. induction d as [|[k' v'] d IH]; [reflexivity|].
  cbn. destruct (String.eqb k' k) eqn:E; cbn; [exact IH|]. rewrite E. cbn.
  now rewrite IH.
Qed.

(** Normalizing the remaining batch again gives the remaining batch. *)
Lemma upper_keys_remaining_batch option_kwargs :
  upper_keys (remaining_batch option_kwargs) = remaining_batch option_kwargs.
Proof.
  assert (Hc : Forall (fun kv : string * pyval => upper (fst kv) = fst kv)
                      (remaining_batch option_kwargs)).
  { unfold remaining_batch, dict_del. apply Forall_forall. intros kv Hin.
    apply list_elem_of_In, filter_In in Hin as [Hin _].
    pose proof (upper_keys_canonical option_kwargs) as Hc.
    rewrite Forall_forall in Hc. now apply Hc, list_elem_of_In. }
  assert (Hn : List.NoDup (map fst (remaining_batch option_kwargs)))
    by apply dict_del_keys_nodup, upper_keys_nodup.
  revert Hc Hn. generalize (remaining_batch option_kwargs) as d. intros d Hc Hn.
  assert (Hmap : map (fun kv => upper (fst kv)) d = map fst d).
  { induction Hc as [|kv d Hkv Hc IH]; [reflexivity|]. cbn.
    apply List.NoDup_cons_iff in Hn as [_ Hn]. now rewrite Hkv, IH. }
  rewrite upper_keys_distinct by now rewrite Hmap.
  clear Hn Hmap. induction Hc as [|[k v] d Hkv Hc IH]; [reflexivity|].
  cbn in *. unfold normalize at 1. cbn. now rewrite Hkv, IH.
Qed.

(** ** Assigning a value that is already valid *)

Lemma py_eqb_type_sym x y :
  is_type x = true -> is_type y = true -> py_eqb x y = py_eqb y x.
Proof.
  destruct x, y; try discriminate; intros _ _; cbn. apply String.eqb_sym.
Qed.

Lemma renderables_loop_types l acc :
  forallb is_type l = true ->
  renderables_loop l acc = inl (fold_left (fun a x => set_add x a) l acc).
Proof.
  revert acc. induction l as [|x l IH]; intros acc H; [reflexivity|].
  cbn in H. apply andb_prop in H as [Hx Hl].
  destruct x; try discriminate Hx. cbn. now apply IH.
Qed.

Lemma fold_set_add_distinct l acc :
  forallb is_type l = true ->
  forallb is_type acc = true ->
  distinct l = true ->
  (forall x, In x l -> existsb (py_eqb x) acc = false) ->
  fold_left (fun a x => set_add x a) l acc = acc ++ l.
Proof.
  revert acc. induction l as [|x l IH]; intros acc Hl Hacc Hd Hnew; cbn.
  - now rewrite app_nil_r.
  - cbn in Hl, Hd. apply andb_prop in Hl as [Hx Hl].
    apply andb_prop in Hd as [Hxl Hd]. apply negb_true_iff in Hxl.
    unfold set_add at 2. rewrite (Hnew x) by now left.
    rewrite IH; trivial.
    + now rewrite <- app_assoc.
    + rewrite forallb_app, Hacc. cbn. now rewrite Hx.
    + intros y Hy. rewrite existsb_app, (Hnew y) by now right. cbn.
      rewrite orb_false_r.
      assert (Hty : is_type y = true)
        by (rewrite forallb_forall in Hl; now apply Hl).
      rewrite py_eqb_type_sym by assumption.
      destruct (py_eqb x y) eqn:E; [|reflexivity].
      assert (existsb (py_eqb x) l = true); [|congruence].
      apply existsb_exists. now exists y.
Qed.

Lemma to_set_types l :
  forallb is_type l = true -> distinct l = true -> to_set l = l.
Proof.
  intros Hl Hd. unfold to_set. now rewrite fold_set_add_distinct.
Qed.

(** ** The fields that a formatter sets *)

Lemma all_fields_split :
  all_fields = fields_before_mode ++ DISPLAY_MODE :: fields_after_mode.
Proof. reflexivity. Qed.

Lemma last_reset_In l g v : last_reset l g = Some v -> In (g, v) l.
Proof.
  induction l as [|[f x] l IH]; [discriminate|]. cbn [last_reset].
  destruct (last_reset l g) as [v'|].
  - intros [= <-]. right. now apply IH.
  - case_decide; [|discriminate]. intros [= <-]. subst. now left.
Qed.

Lemma last_reset_mode c : last_reset (mode_resets c) DISPLAY_MODE = None.
Proof.
  destruct (last_reset (mode_resets c) DISPLAY_MODE) as [v|] eqn:E; [|reflexivity].
  apply last_reset_In, mode_resets_ok in E as [E _]. now destruct E.
Qed.

Lemma last_reset_stored_ok c g v :
  last_reset (mode_resets c) g = Some v -> stored_ok g v = true.
Proof. intros E. now apply last_reset_In, mode_resets_ok in E. Qed.

(** On a field other than the display mode [set_option] is [reset_option]. *)
Lemma set_option_reset_option f v w :
  f <> DISPLAY_MODE -> set_option (field_name f) v w = reset_option f v w.
Proof.
  intros Hf. unfold set_option, reset_option.
  rewrite upper_field_name, field_of_name_name. unfold bind.
  destruct (setattr f v w) as [[[]|e] w1]; [|reflexivity].
  rewrite (bool_decide_eq_false_2 _ Hf).
  destruct (pd_options f) as [k|].
  - destruct (pandas_set_option k v w1) as [[[]|e] w2]; reflexivity.
  - reflexivity.
Qed.

(** [reset_option] on a field other than the display mode, with a value that
    the store could already hold, returns, and does exactly this: the field
    is stored, the pandas option that mirrors it is set, the log level is
    passed on. *)
Lemma reset_option_stored f v w :
  f <> DISPLAY_MODE ->
  stored_ok f v = true ->
  exists w',
    reset_option f v w = (Ok tt, w') /\
    (forall g, settings w' g = store f v (settings w) g) /\
    (forall k, pandas w' k = if decide (pd_field k = f) then v else pandas w k) /\
    formatters w' = formatters w /\
    dx_log_level w' = (if decide (f = LOG_LEVEL) then v else dx_log_level w).
Proof.
  intros Hf Hok. unfold reset_option.
  destruct f; try congruence; destruct v; try discriminate Hok;
    unfold stored_ok in Hok; cbn in Hok.
  all: try (apply andb_prop in Hok as [Hty Hd]).
  all: unfold bind, setattr; cbn;
    unfold validate_display_max_rows, validate_display_max_columns,
      validate_html_table_schema, push_and_return, pandas_set_option,
      pd_set_option; cbn.
  all: try (assert (Hlt : (z <? 0) = false) by (apply Z.ltb_ge; lia);
            rewrite Hlt; cbn; rewrite Hok; cbn).
  all: try (unfold validate_renderables; rewrite renderables_loop_types by assumption;
            fold (to_set l); rewrite to_set_types by assumption; cbn;
            rewrite Hty, to_set_types by assumption; cbn).
  all: eexists; split; [reflexivity|]; cbn;
    repeat split; try reflexivity;
    intros y; unfold store; repeat case_decide; try congruence;
    destruct y; cbn in *; congruence.
Qed.

(** [set_option] on the canonical name of a field other than the display
    mode, with a value that the store could already hold. *)
Lemma set_option_stored f v w :
  f <> DISPLAY_MODE ->
  stored_ok f v = true ->
  exists w',
    set_option (field_name f) v w = (Ok tt, w') /\
    (forall g, settings w' g = store f v (settings w) g) /\
    (forall k, pandas w' k = if decide (pd_field k = f) then v else pandas w k) /\
    formatters w' = formatters w /\
    dx_log_level w' = (if decide (f = LOG_LEVEL) then v else dx_log_level w).
Proof.
  intros Hf Hok. rewrite set_option_reset_option by assumption.
  now apply reset_option_stored.
Qed.

(** The fields that a formatter sets, one after the other: each field holds
    the value of the last assignment to it, pandas and the logger follow. *)
Lemma reset_options_stored l w :
  (forall f v, In (f, v) l -> f <> DISPLAY_MODE /\ stored_ok f v = true) ->
  exists w',
    reset_options l w = (Ok tt, w') /\
    (forall g, settings w' g = after_resets l (settings w) g) /\
    (forall k, pandas w' k = default (pandas w k) (last_reset l (pd_field k))) /\
    formatters w' = formatters w /\
    dx_log_level w' = default (dx_log_level w) (last_reset l LOG_LEVEL).
Proof.
  revert w. induction l as [|[f v] l IH]; intros w Hl.
  - exists w. repeat split; reflexivity.
  - destruct (Hl f v (or_introl eq_refl)) as [Hf Hok].
    destruct (reset_option_stored f v w Hf Hok) as (w1 & E1 & S1 & P1 & F1 & L1).
    destruct (IH w1) as (w2 & E2 & S2 & P2 & F2 & L2).
    { intros g x Hg. apply Hl. now right. }
    exists w2. cbn [reset_options]. unfold bind. rewrite E1.
    split; [exact E2|]. split; [|split; [|split]].
    + intros g. rewrite S2. unfold after_resets. cbn [last_reset].
      destruct (last_reset l g); [reflexivity|]. cbn. rewrite S1. unfold store.
      repeat case_decide; subst; cbn; congruence.
    + intros k. rewrite P2. cbn [last_reset].
      destruct (last_reset l (pd_field k)); [reflexivity|]. cbn. rewrite P1.
      repeat case_decide; subst; cbn; congruence.
    + now rewrite F2.
    + rewrite L2. cbn [last_reset].
      destruct (last_reset l LOG_LEVEL); [reflexivity|]. cbn. rewrite L1.
      repeat case_decide; subst; cbn; congruence.
Qed.

(** One formatter call: it is recorded, and the fields of its mode are set. *)
Lemma call_stored c w :
  exists w',
    call c w = (Ok tt, w') /\
    formatters w' = formatters w ++ [c] /\
    (forall g, settings w' g = after_resets (mode_resets c) (settings w) g) /\
    (forall k, pandas w' k =
               default (pandas w k) (last_reset (mode_resets c) (pd_field k))) /\
    dx_log_level w' = default (dx_log_level w) (last_reset (mode_resets c) LOG_LEVEL).
Proof.
  unfold call.
  destruct (reset_options_stored (mode_resets c) (with_call c w))
    as (w' & E & S & P & F & L); [apply mode_resets_ok|].
  exists w'. split; [exact E|]. split; [exact F|]. now repeat split.
Qed.

(** The formatter's fields leave the display mode alone, hold values that the
    store could hold, and keep pandas on the fields it mirrors. *)
Lemma after_resets_mode c s :
  after_resets (mode_resets c) s DISPLAY_MODE = s DISPLAY_MODE.
Proof. unfold after_resets. now rewrite last_reset_mode. Qed.

Lemma after_resets_stored_ok c s g :
  stored_ok g (s g) = true ->
  stored_ok g (after_resets (mode_resets c) s g) = true.
Proof.
  intros H. unfold after_resets.
  destruct (last_reset (mode_resets c) g) as [v|] eqn:E; [|exact H].
  cbn. now apply last_reset_stored_ok in E.
Qed.

Lemma call_mirrored c w w' k :
  (forall g, settings w' g = after_resets (mode_resets c) (settings w) g) ->
  pandas w' k = default (pandas w k) (last_reset (mode_resets c) (pd_field k)) ->
  pandas w k = settings w (pd_field k) ->
  pandas w' k = settings w' (pd_field k).
Proof.
  intros S P H. rewrite P, S. unfold after_resets. now rewrite H.
Qed.

(** The loop of [set_option] over two batches, one after the other. *)
Lemma set_options_app d1 d2 w :
  set_options (d1 ++ d2) w =
    match set_options d1 w with
    | (Ok _, w1) => set_options d2 w1
    | (Raise e, w1) => (Raise e, w1)
    end.
Proof.
  revert w. induction d1 as [|[k v] d1 IH]; intros w; [reflexivity|].
  cbn [app set_options]. unfold bind.
  destruct (set_option k v w) as [[[]|e] w1]; [apply IH|reflexivity].
Qed.

(** The restoring loop, run over the entries of a snapshot [s0] for fields
    [l] other than the display mode. *)
Lemma set_options_snapshot s0 l w :
  DISPLAY_MODE ∉ l ->
  (forall f, f ∈ l -> stored_ok f (s0 f) = true) ->
  exists w',
    set_options (map (fun f => (field_name f, s0 f)) l) w = (Ok tt, w') /\
    (forall g, settings w' g = if decide (g ∈ l) then s0 g else settings w g) /\
    (forall k, pandas w' k =
               if decide (pd_field k ∈ l) then s0 (pd_field k) else pandas w k) /\
    formatters w' = formatters w /\
    dx_log_level w' =
      (if decide (LOG_LEVEL ∈ l) then s0 LOG_LEVEL else dx_log_level w).
Proof.
  revert w. induction l as [|f l IH]; intros w Hm Hok.
  - exists w. cbn. repeat split; intros;
      case_decide; trivial; exfalso; eapply not_elem_of_nil; eassumption.
  - apply not_elem_of_cons in Hm as [Hf Hm].
    destruct (set_option_stored f (s0 f) w) as (w1 & E1 & S1 & P1 & F1 & L1).
    { congruence. }
    { apply Hok. left. }
    destruct (IH w1 Hm) as (w2 & E2 & S2 & P2 & F2 & L2).
    { intros g Hg. apply Hok. now right. }
    exists w2. cbn [map set_options]. unfold bind. rewrite E1. split; [exact E2|].
    split; [|split; [|split]].
    + intros g. rewrite S2, S1. unfold store. clear.
      repeat case_decide; subst; trivial; exfalso;
        rewrite ?elem_of_cons in *; intuition congruence.
    + intros k. rewrite P2, P1. clear.
      repeat case_decide; subst; trivial; exfalso;
        rewrite ?elem_of_cons in *; intuition congruence.
    + now rewrite F2.
    + rewrite L2, L1. clear.
      repeat case_decide; subst; trivial; exfalso;
        rewrite ?elem_of_cons in *; intuition congruence.
Qed.

Lemma elem_of_all_fields f : f ∈ all_fields.
Proof. apply list_elem_of_In. destruct f; cbn; tauto. Qed.

Lemma valid_stored_ok s f : valid s = true -> stored_ok f (s f) = true.
Proof.
  unfold valid. rewrite forallb_forall. intros H. apply H.
  apply list_elem_of_In, elem_of_all_fields.
Qed.

Lemma valid_mode s : valid s = true -> exists m, s DISPLAY_MODE = PMode m.
Proof.
  intros H. apply (valid_stored_ok _ DISPLAY_MODE) in H.
  destruct (s DISPLAY_MODE); try discriminate H. eauto.
Qed.

Lemma valid_pointwise s :
  (forall g, stored_ok g (s g) = true) -> valid s = true.
Proof. intros H. unfold valid. apply forallb_forall. intros g _. apply H. Qed.

Lemma valid_store s s' f v :
  valid s = true -> stored_ok f v = true ->
  (forall g, s' g = store f v s g) -> valid s' = true.
Proof.
  intros Hv Hok Hs. unfold valid. apply forallb_forall. intros g _.
  rewrite Hs. unfold store. case_decide; subst; auto using valid_stored_ok.
Qed.

Lemma fields_before_after g :
  g ∈ fields_before_mode \/ g = DISPLAY_MODE \/ g ∈ fields_after_mode.
Proof.
  pose proof (elem_of_all_fields g) as H. rewrite all_fields_split in H.
  apply elem_of_app in H as [H|H]; [now left|].
  apply elem_of_cons in H as [H|H]; auto.
Qed.

Lemma fields_before_not_after g :
  g ∈ fields_before_mode -> (g ∉ fields_after_mode) /\ g <> DISPLAY_MODE.
Proof.
  unfold fields_before_mode, fields_after_mode. intros H.
  repeat (apply elem_of_cons in H as [->|H]);
    try (split; [|discriminate];
         intros H'; repeat (apply elem_of_cons in H' as [H'|H']; try discriminate H');
         now apply not_elem_of_nil in H').
  now apply not_elem_of_nil in H.
Qed.

Lemma fields_after_not_before g :
  g ∈ fields_after_mode -> (g ∉ fields_before_mode) /\ g <> DISPLAY_MODE.
Proof.
  intros H. split.
  - intros H'. now apply fields_before_not_after in H' as [H' _].
  - intros ->. revert H. unfold fields_after_mode. intros H.
    repeat (apply elem_of_cons in H as [H|H]; try discriminate H).
    now apply not_elem_of_nil in H.
Qed.

Lemma mode_not_before : DISPLAY_MODE ∉ fields_before_mode.
Proof. intros H. now apply fields_before_not_after in H as [_ H]. Qed.

Lemma mode_not_after : DISPLAY_MODE ∉ fields_after_mode.
Proof. intros H. now apply fields_after_not_before in H as [_ H]. Qed.

Lemma pd_field_before k : pd_field k ∈ fields_before_mode.
Proof. destruct k; cbn; unfold fields_before_mode; repeat constructor. Qed.

Lemma log_level_after : LOG_LEVEL ∈ fields_after_mode.
Proof. unfold fields_after_mode. repeat constructor. Qed.

Section StrIsValue.
Hypothesis Hstr : str_is_value.

(** ** The mode controller *)

Lemma mode_of_value_Some s m : mode_of_value s = Some m -> s = mode_value m.
Proof.
  unfold mode_of_value. repeat case_decide; intros [= <-]; assumption.
Qed.

(** What [set_display_mode] does on every value: for a member of
    [DXDisplayMode] or the value of one, it stores the member and makes the
    formatter call of that mode; for anything else the assignment to
    [settings.DISPLAY_MODE] is refused and nothing happens. *)
Lemma set_display_mode_spec v w :
  set_display_mode v w =
    match as_mode v with
    | Some m =>
        call (mode_call m)
             (with_settings (store DISPLAY_MODE (PMode m) (settings w)) w)
    | None => (Raise (ValidationError DISPLAY_MODE NotOfType), w)
    end.
Proof.
  destruct v; try reflexivity.
  - cbn [as_mode]. unfold set_display_mode, bind, setattr. cbn.
    destruct (mode_of_value s) as [m|] eqn:E; [|reflexivity].
    apply mode_of_value_Some in E as ->. destruct m; reflexivity.
  - unfold set_display_mode, bind, setattr. cbn. rewrite Hstr.
    destruct m; reflexivity.
Qed.

(** [set_display_mode] on a value that names the mode [m]: the mode is
    stored, its formatter call is made, and the fields of the mode are
    set. *)
Lemma set_display_mode_stored v m w :
  as_mode v = Some m ->
  exists w',
    set_display_mode v w = (Ok tt, w') /\
    formatters w' = formatters w ++ [mode_call m] /\
    (forall g, settings w' g =
               after_resets (mode_resets (mode_call m))
                 (store DISPLAY_MODE (PMode m) (settings w)) g) /\
    (forall k, pandas w' k =
               default (pandas w k)
                 (last_reset (mode_resets (mode_call m)) (pd_field k))) /\
    dx_log_level w' =
      default (dx_log_level w) (last_reset (mode_resets (mode_call m)) LOG_LEVEL).
Proof.
  intros Hm. rewrite set_display_mode_spec, Hm.
  destruct (call_stored (mode_call m)
              (with_settings (store DISPLAY_MODE (PMode m) (settings w)) w))
    as (w' & E & F & S & P & L).
  exists w'. now repeat split.
Qed.

(** C4 (amended). [set_display_mode] makes exactly one formatter call,
    [register] for [enhanced], [deregister] for [simple] and [reset] for
    [plain], whether the mode is given as a member of [DXDisplayMode] or as
    its value; on any other value it makes no call and changes nothing, and
    the error is the validation error of the assignment to the display-mode
    field, raised before the modes are compared. *)
Theorem set_display_mode_one_call v w :
  match as_mode v with
  | Some m =>
      exists w',
        set_display_mode v w = (Ok tt, w') /\
        formatters w' = formatters w ++ [mode_call m] /\
        settings w' DISPLAY_MODE = PMode m
  | None =>
      set_display_mode v w = (Raise (ValidationError DISPLAY_MODE NotOfType), w)
  end.
Proof.
  destruct (as_mode v) as [m|] eqn:Hm.
  - destruct (set_display_mode_stored v m w Hm) as (w' & E & F & S & _).
    exists w'. split; [exact E|]. split; [exact F|].
    rewrite S, after_resets_mode. unfold store. now case_decide.
  - now rewrite set_display_mode_spec, Hm.
Qed.

(** [set_option] on the display mode, with a member [m]: the member is
    stored, the formatter call of [m] is made and the fields of [m] are
    set. *)
Lemma set_option_mode m w :
  exists w',
    set_option (field_name DISPLAY_MODE) (PMode m) w = (Ok tt, w') /\
    formatters w' = formatters w ++ [mode_call m] /\
    (forall g, settings w' g =
               after_resets (mode_resets (mode_call m))
                 (store DISPLAY_MODE (PMode m) (settings w)) g) /\
    (forall k, pandas w' k =
               default (pandas w k)
                 (last_reset (mode_resets (mode_call m)) (pd_field k))) /\
    dx_log_level w' =
      default (dx_log_level w) (last_reset (mode_resets (mode_call m)) LOG_LEVEL).
Proof.
  unfold set_option. rewrite upper_field_name, field_of_name_name.
  unfold bind at 1. unfold setattr at 1. cbn [pre_validate field_type coerce ret].
  cbn [pd_options]. unfold bind at 1. unfold ret at 1.
  rewrite (bool_decide_eq_true_2 (DISPLAY_MODE = DISPLAY_MODE) eq_refl).
  unfold bind at 1.
  destruct (set_display_mode_stored (PMode m) m
              (with_settings (store DISPLAY_MODE (PMode m) (settings w)) w) eq_refl)
    as (w' & E & F & S & P & L).
  rewrite E. exists w'. split; [reflexivity|]. split; [exact F|].
  split; [|now split].
  intros g. rewrite S. unfold after_resets. destruct (last_reset _ g); [reflexivity|].
  cbn. unfold store. now case_decide.
Qed.

(** ** Leaving a scope *)

(** The restoring loop on a valid snapshot [s0] whose display mode is [m],
    from any world.  It returns.  The fields listed before the display mode
    are restored first; then the display mode is restored and its formatter
    sets the fields of the mode again; then the fields listed after the
    display mode are restored.  So the configuration left is
    [exit_settings s0 m]; pandas mirrors it, the formatter call of [m] is the
    one call made, and the logger has the snapshot's level. *)
Lemma restore_snapshot s0 m w :
  valid s0 = true ->
  s0 DISPLAY_MODE = PMode m ->
  exists w',
    set_options (dict s0) w = (Ok tt, w') /\
    (forall g, settings w' g = exit_settings s0 m g) /\
    (forall k, pandas w' k = settings w' (pd_field k)) /\
    formatters w' = formatters w ++ [mode_call m] /\
    dx_log_level w' = s0 LOG_LEVEL.
Proof.
  intros Hv Hm. unfold dict. rewrite all_fields_split, map_app, set_options_app.
  destruct (set_options_snapshot s0 fields_before_mode w mode_not_before)
    as (w1 & E1 & S1 & P1 & F1 & L1).
  { intros f _. now apply valid_stored_ok. }
  rewrite E1. cbn [map set_options]. unfold bind. rewrite Hm.
  destruct (set_option_mode m w1) as (w2 & E2 & F2 & S2 & P2 & L2).
  rewrite E2.
  destruct (set_options_snapshot s0 fields_after_mode w2 mode_not_after)
    as (w3 & E3 & S3 & P3 & F3 & L3).
  { intros f _. now apply valid_stored_ok. }
  exists w3. split; [exact E3|].
  assert (HS : forall g, settings w3 g = exit_settings s0 m g).
  { intros g. rewrite S3. unfold exit_settings.
    destruct (fields_before_after g) as [Hg|[->|Hg]].
    - destruct (fields_before_not_after g Hg) as [Hna Hnm].
      rewrite (bool_decide_eq_true_2 _ Hg). rewrite decide_False by assumption.
      rewrite S2. unfold after_resets.
      destruct (last_reset _ g); [reflexivity|]. cbn. unfold store.
      rewrite decide_False by assumption. rewrite S1.
      now rewrite decide_True by assumption.
    - rewrite (bool_decide_eq_false_2 _ mode_not_before).
      rewrite (decide_False (P := DISPLAY_MODE ∈ fields_after_mode)) by apply mode_not_after.
      rewrite S2, after_resets_mode. unfold store. rewrite Hm. now case_decide.
    - destruct (fields_after_not_before g Hg) as [Hnb Hnm].
      rewrite (bool_decide_eq_false_2 _ Hnb). now rewrite decide_True by assumption. }
  split; [exact HS|]. split; [|split].
  - intros k. pose proof (pd_field_before k) as Hk.
    destruct (fields_before_not_after _ Hk) as [Hna Hnm].
    rewrite P3, S3. rewrite !decide_False by assumption.
    apply (call_mirrored (mode_call m)
             (with_settings (store DISPLAY_MODE (PMode m) (settings w1)) w1)).
    + exact S2.
    + apply P2.
    + cbn. rewrite P1, decide_True by assumption. unfold store.
      rewrite decide_False by assumption. rewrite S1.
      now rewrite decide_True by assumption.
  - now rewrite F3, F2, F1.
  - rewrite L3. now rewrite decide_True by apply log_level_after.
Qed.

(** The display-mode override of a scope that is not refused on entry. *)
Lemma entry_mode_stored option_kwargs w :
  refused_on_entry option_kwargs = false ->
  exists w1,
    (if py_truthy (default PNone (dict_get "DISPLAY_MODE" (upper_keys option_kwargs)))
     then set_display_mode
            (default PNone (dict_get "DISPLAY_MODE" (upper_keys option_kwargs)))
     else ret tt) w = (Ok tt, w1) /\
    (forall g, stored_ok g (settings w g) = true ->
               stored_ok g (settings w1 g) = true).
Proof.
  unfold refused_on_entry.
  set (display_mode := default PNone (dict_get "DISPLAY_MODE" (upper_keys option_kwargs))).
  intros Hr.
  destruct (py_truthy display_mode); [|exists w; now split].
  cbn in Hr. apply negb_false_iff, bool_decide_eq_true in Hr as [m Hm].
  destruct (set_display_mode_stored display_mode m w Hm) as (w1 & E & _ & S & _).
  exists w1. split; [exact E|]. intros g Hg. rewrite S.
  apply after_resets_stored_ok. unfold store. now case_decide; subst.
Qed.

(** C1.  The scope does not give every field its entry value back.  From a
    valid configuration whose display mode is [m], and unless the
    display-mode override is refused on entry, whatever the other overrides
    and however the block ends, the restoring loop returns, and the
    configuration that [settings_context] leaves is [exit_settings]: a field
    listed before the display mode that the formatter of [m] sets ends with
    the formatter's value, not with its entry value, because the loop
    restores the display mode after it; every other field has its entry
    value.  The restoration is [set_option] over the whole snapshot, from the
    world [w2] that the block left; pandas mirrors the fields as they end,
    the last formatter call is the one of [m], and the logger has the entry
    level. *)
Theorem settings_context_exit_fields option_kwargs body w r w' m :
  valid (settings w) = true ->
  settings w DISPLAY_MODE = PMode m ->
  refused_on_entry option_kwargs = false ->
  settings_context option_kwargs body w = (r, w') ->
  (forall g, settings w' g = exit_settings (settings w) m g) /\
  (forall g v, g ∈ fields_before_mode ->
               last_reset (mode_resets (mode_call m)) g = Some v ->
               settings w' g = v) /\
  (forall g, last_reset (mode_resets (mode_call m)) g = None ->
             settings w' g = settings w g) /\
  (exists w2, set_options (dict (settings w)) w2 = (Ok tt, w')) /\
  (forall k, pandas w' k = settings w' (pd_field k)) /\
  last (formatters w') = Some (mode_call m) /\
  dx_log_level w' = settings w LOG_LEVEL.
Proof.
  intros Hv Hm Hr Hrun.
  cut ((forall g, settings w' g = exit_settings (settings w) m g) /\
       (exists w2, set_options (dict (settings w)) w2 = (Ok tt, w')) /\
       (forall k, pandas w' k = settings w' (pd_field k)) /\
       last (formatters w') = Some (mode_call m) /\
       dx_log_level w' = settings w LOG_LEVEL).
  { intros (HS & HR). split; [exact HS|]. split; [|split; [|exact HR]].
    - intros g v Hg Hl. rewrite HS. unfold exit_settings, after_resets.
      rewrite (bool_decide_eq_true_2 _ Hg), Hl. reflexivity.
    - intros g Hl. rewrite HS. unfold exit_settings, after_resets.
      rewrite Hl. now case_bool_decide. }
  revert Hrun. unfold settings_context, bind, try_finally.
  destruct (entry_mode_stored option_kwargs w Hr) as (w1 & E1 & _).
  rewrite E1.
  destruct (match set_options _ w1 with
            | (Ok a, w'0) => body w'0
            | (Raise e, w'0) => (Raise e, w'0)
            end) as [r1 w2].
  destruct (restore_snapshot (settings w) m w2 Hv Hm) as (w3 & E & S & P & F & L).
  rewrite E. intros [= <- <-]. split; [exact S|]. split; [now exists w2|].
  split; [exact P|]. split; [|exact L].
  rewrite F. apply last_snoc.
Qed.

(** ** Nested scopes *)

Lemma field_name_not_mode f :
  f <> DISPLAY_MODE -> String.eqb (field_name f) "DISPLAY_MODE" = false.
Proof. destruct f; try reflexivity; congruence. Qed.

(** A scope with the single override of field [f] by the valid value [v]:
    the block runs in a valid world [w1] where [f] is [v], and when the block
    has ended the scope ends with the block's outcome and the configuration
    [exit_settings] of the entry configuration. *)
Lemma scope_single key f v body w m :
  upper key = field_name f ->
  stored_ok f v = true ->
  valid (settings w) = true ->
  settings w DISPLAY_MODE = PMode m ->
  exists w1,
    settings w1 f = v /\
    valid (settings w1) = true /\
    (f <> DISPLAY_MODE -> settings w1 DISPLAY_MODE = PMode m) /\
    forall rb wb, body w1 = (rb, wb) ->
      exists w',
        settings_context [(key, v)] body w = (rb, w') /\
        forall g, settings w' g = exit_settings (settings w) m g.
Proof.
  intros Hkey Hok Hv Hm. unfold settings_context.
  change (upper_keys [(key, v)]) with [(upper key, v)]. rewrite Hkey.
  unfold dict_get, dict_del. cbn [find List.filter fst].
  destruct (decide (f = DISPLAY_MODE)) as [->|Hf].
  - cbn [field_name]. rewrite String.eqb_refl.
    cbn [fmap option_fmap option_map snd from_option id negb].
    destruct v as [| | | | |m'| | | |]; try discriminate Hok. cbn [py_truthy].
    unfold bind.
    destruct (set_display_mode_stored (PMode m') m' w eq_refl)
      as (w1 & E1 & _ & S1 & _).
    rewrite E1. exists w1.
    split; [rewrite S1, after_resets_mode; unfold store; now case_decide|].
    split; [|split; [congruence|]].
    { apply valid_pointwise. intros g. rewrite S1.
      apply after_resets_stored_ok. unfold store.
      case_decide; subst; [reflexivity|now apply valid_stored_ok]. }
    intros rb wb Hb.
    unfold try_finally. cbn [set_options]. unfold bind, ret. rewrite Hb.
    destruct (restore_snapshot (settings w) m wb Hv Hm) as (w' & E & S & _).
    rewrite E. eauto.
  - rewrite (field_name_not_mode f Hf).
    cbn [fmap option_fmap option_map snd from_option id negb py_truthy].
    destruct (set_option_stored f v w Hf Hok) as (w1 & E1 & S1 & _).
    exists w1. split; [rewrite S1; unfold store; now case_decide|].
    split; [now apply (valid_store (settings w) _ f v)|].
    split; [intros _; rewrite S1; unfold store; case_decide; [congruence|exact Hm]|].
    intros rb wb Hb.
    unfold bind, ret, try_finally. cbn [set_options]. unfold bind, ret.
    rewrite E1, Hb.
    destruct (restore_snapshot (settings w) m wb Hv Hm) as (w' & E & S & _).
    rewrite E. eauto.
Qed.

(** C7.  Nested scopes do not restore in reverse order of entry.  Two
    strictly nested scopes override the same field [f], listed before the
    display mode, the outer one with [v1] and the inner one with [v2], in a
    valid configuration whose display mode [m] has a formatter that sets [f]
    to [vr].  The outer block starts in a world [w1] where [f] is [v1]; the
    inner block runs in a world [w2] where [f] is [v2]; when the inner block
    has ended, the inner scope ends in a world [w3] where [f] is [vr], not
    [v1]: the outer override is not visible again; and when the rest of the
    outer block has ended, the outer scope ends in a world [w4] where [f] is
    [vr], not the value from before the outer scope. *)
Theorem nested_scopes_reset key1 key2 f v1 v2 vr body rest w m :
  upper key1 = field_name f ->
  upper key2 = field_name f ->
  f ∈ fields_before_mode ->
  stored_ok f v1 = true ->
  stored_ok f v2 = true ->
  valid (settings w) = true ->
  settings w DISPLAY_MODE = PMode m ->
  last_reset (mode_resets (mode_call m)) f = Some vr ->
  let inner := settings_context [(key2, v2)] body in
  let outer := settings_context [(key1, v1)] (run inner; rest) in
  exists w1 w2,
    settings w1 f = v1 /\
    settings w2 f = v2 /\
    forall rb wb, body w2 = (rb, wb) ->
      exists w3,
        inner w1 = (rb, w3) /\
        settings w3 f = vr /\
        forall ro wo, (run inner; rest) w1 = (ro, wo) ->
          exists w4,
            outer w = (ro, w4) /\
            settings w4 f = vr.
Proof.
  intros Hk1 Hk2 Hf Hok1 Hok2 Hv Hm Hvr inner outer.
  destruct (fields_before_not_after f Hf) as [_ Hnm].
  assert (Hexit : forall s, exit_settings s m f = vr).
  { intros s. unfold exit_settings, after_resets.
    now rewrite (bool_decide_eq_true_2 _ Hf), Hvr. }
  destruct (scope_single key1 f v1 (run inner; rest) w m Hk1 Hok1 Hv Hm)
    as (w1 & Hf1 & Hv1 & Hm1 & Houter).
  destruct (scope_single key2 f v2 body w1 m Hk2 Hok2 Hv1 (Hm1 Hnm))
    as (w2 & Hf2 & _ & _ & Hinner).
  exists w1, w2. split; [exact Hf1|]. split; [exact Hf2|].
  intros rb wb Hb. destruct (Hinner rb wb Hb) as (w3 & E3 & S3).
  exists w3. split; [exact E3|]. split; [now rewrite S3|].
  intros ro wo Ho. destruct (Houter ro wo Ho) as (w4 & E4 & S4).
  exists w4. split; [exact E4|now rewrite S4].
Qed.

End StrIsValue.

(** ** The display-mode override of a scope *)

(** [settings_context] entered without a display-mode key. *)
Lemma settings_context_no_mode option_kwargs body w :
  dict_get "DISPLAY_MODE" (upper_keys option_kwargs) = None ->
  settings_context option_kwargs body w
  = try_finally (run (set_options (remaining_batch option_kwargs)); body)
                (set_options (dict (settings w))) w.
Proof.
  intros H. unfold settings_context, remaining_batch. rewrite H. reflexivity.
Qed.





(** ** The renderable types *)

Lemma set_add_type_in n s y :
  In y (set_add (PType n) s) <-> In y s \/ y = PType n.
Proof.
  unfold set_add. destruct (existsb (py_eqb (PType n)) s) eqn:E.
  - split; [tauto|]. intros [H| ->]; [exact H|].
    apply existsb_exists in E as (z & Hz & Heq).
    destruct z; try discriminate Heq. cbn in Heq.
    apply String.eqb_eq in Heq. now subst.
  - rewrite in_app_iff. cbn. intuition congruence.
Qed.

Lemma set_add_type_nodup n s :
  List.NoDup s -> List.NoDup (set_add (PType n) s).
Proof.
  intros Hn. unfold set_add.
  destruct (existsb (py_eqb (PType n)) s) eqn:E; [exact Hn|].
  apply NoDup_ListNoDup, NoDup_app. repeat split.
  - now apply NoDup_ListNoDup.
  - intros x Hx Hx'. apply list_elem_of_singleton in Hx' as ->.
    assert (existsb (py_eqb (PType n)) s = true); [|congruence].
    apply existsb_exists. exists (PType n). split.
    + now apply list_elem_of_In.
    + cbn. apply String.eqb_refl.
  - apply NoDup_singleton.
Qed.

Lemma set_update_types l s :
  forallb is_type l = true ->
  exists s',
    set_update l s = (Ok tt, s') /\
    (forall x, In x s' <-> In x s \/ In x l) /\
    (List.NoDup s -> List.NoDup s').
Proof.
  revert s. induction l as [|x l IH]; intros s Hl.
  - exists s. cbn. repeat split; tauto.
  - cbn in Hl. apply andb_prop in Hl as [Hx Hl].
    destruct x; try discriminate Hx. cbn [set_update hashable].
    destruct (IH (set_add (PType name) s) Hl) as (s' & E & Hin & Hnd).
    exists s'. split; [exact E|]. split.
    + intros y. rewrite Hin, set_add_type_in. cbn. intuition congruence.
    + intros Hn. now apply Hnd, set_add_type_nodup.
Qed.

(** C8. [add_renderable_type] with a list [L] of types on a configuration
    whose renderable objects are the set [S]: the call returns and the field
    holds a set whose elements are exactly those of [S] and those of [L],
    without a repetition if [S] had none; no other field changes, and neither
    do pandas' options, the formatter calls or the log level. *)
Theorem add_renderable_type_union S L w :
  settings w RENDERABLE_OBJECTS = PSet S ->
  forallb is_type L = true ->
  exists w' S',
    add_renderable_type (PList L) w = (Ok tt, w') /\
    settings w' RENDERABLE_OBJECTS = PSet S' /\
    (forall x, In x S' <-> In x S \/ In x L) /\
    (List.NoDup S -> List.NoDup S') /\
    (forall g, g <> RENDERABLE_OBJECTS -> settings w' g = settings w g) /\
    pandas w' = pandas w /\
    formatters w' = formatters w /\
    dx_log_level w' = dx_log_level w.
Proof.
  intros HS HL. unfold add_renderable_type. rewrite HS.
  destruct (set_update_types L S HL) as (S' & E & Hin & Hnd). rewrite E.
  eexists _, S'. split; [reflexivity|]. cbn.
  repeat split; trivial; try apply Hin; try apply Hnd.
  intros g Hg. unfold store. now case_decide.
Qed.

(** A single type is added as the one-element list. *)
Lemma add_renderable_type_single n :
  add_renderable_type (PType n) = add_renderable_type (PList [PType n]).
Proof. reflexivity. Qed.

(** C9 (what the code does). A string given for the renderable objects is
    never parsed into types: the validator splits it into a list, and then
    building the set [{vals}] from that list raises [TypeError], which
    pydantic reports as the validation error of the field; the error does
    not name a token of the input, and nothing is stored. *)
Theorem string_renderables_rejected s w :
  validate_renderables (PStr s) = inr RaisedTypeError /\
  set_option "RENDERABLE_OBJECTS" (PStr s) w
  = (Raise (ValidationError RENDERABLE_OBJECTS RaisedTypeError), w).
Proof.
  split; [reflexivity|]. unfold set_option.
  rewrite (upper_field_name RENDERABLE_OBJECTS). reflexivity.
Qed.

(** The elements of a set are parsed one by one, and an element that [eval]
    cannot evaluate is named in the error. *)
Lemma renderables_loop_names_token val rest acc :
  is_type val = false ->
  py_str val ≫= py_eval = None ->
  renderables_loop (val :: rest) acc = inr (CantEvaluate val).
Proof.
  intros Hty He. cbn. rewrite He. destruct val; try reflexivity; discriminate.
Qed.

(** [add_renderable_type] does not validate: a string in the list goes into
    the set as it is. *)
Lemma add_renderable_type_raw_string S s w :
  settings w RENDERABLE_OBJECTS = PSet S ->
  exists w' S',
    add_renderable_type (PList [PStr s]) w = (Ok tt, w') /\
    settings w' RENDERABLE_OBJECTS = PSet S' /\
    In (PStr s) S'.
Proof.
  intros HS. unfold add_renderable_type. rewrite HS. cbn.
  eexists _, _. split; [reflexivity|]. split; [reflexivity|].
  unfold set_add. destruct (existsb (py_eqb (PStr s)) S) eqn:E.
  - apply existsb_exists in E as (z & Hz & Heq).
    destruct z; try discriminate Heq. cbn in Heq.
    apply String.eqb_eq in Heq. now subst.
  - apply in_or_app. right. now left.
Qed.


(** ** Validity is an invariant of the store *)

Lemma set_add_type_types n s :
  forallb is_type s = true -> forallb is_type (set_add (PType n) s) = true.
Proof.
  intros Hs. unfold set_add. destruct (existsb _ s); [exact Hs|].
  rewrite forallb_app, Hs. reflexivity.
Qed.

Lemma distinct_snoc_type n s :
  forallb is_type s = true -> distinct s = true ->
  existsb (py_eqb (PType n)) s = false ->
  distinct (s ++ [PType n]) = true.
Proof.
  induction s as [|y s IH]; intros Hs Hd Hx; [reflexivity|].
  cbn in *. apply andb_prop in Hs as [Hy Hs]. apply andb_prop in Hd as [Hys Hd].
  apply orb_false_elim in Hx as [Hxy Hx].
  rewrite existsb_app. cbn. rewrite orb_false_r.
  rewrite (py_eqb_type_sym y (PType n)) by trivial. cbn in Hxy |- *.
  rewrite Hxy, orb_false_r, Hys. cbn. now apply IH.
Qed.

Lemma set_add_type_distinct n s :
  forallb is_type s = true -> distinct s = true ->
  distinct (set_add (PType n) s) = true.
Proof.
  intros Hs Hd. unfold set_add.
  destruct (existsb (py_eqb (PType n)) s) eqn:E; [exact Hd|].
  now apply distinct_snoc_type.
Qed.

Lemma fold_set_add_types l acc :
  forallb is_type l = true ->
  forallb is_type acc = true -> distinct acc = true ->
  forallb is_type (fold_left (fun a x => set_add x a) l acc) = true /\
  distinct (fold_left (fun a x => set_add x a) l acc) = true.
Proof.
  revert acc. induction l as [|x l IH]; intros acc Hl Ha Hd; [now split|].
  cbn in Hl. apply andb_prop in Hl as [Hx Hl]. destruct x; try discriminate Hx.
  cbn. apply IH; trivial.
  - now apply set_add_type_types.
  - now apply set_add_type_distinct.
Qed.

(** What the validators and pydantic let through can be stored. *)
Lemma validated_stored_ok f v w x w1 v' :
  pre_validate f v w = (inl x, w1) ->
  coerce (field_type f) x = Some v' ->
  stored_ok f v' = true.
Proof.
  destruct (decide (f = RENDERABLE_OBJECTS)) as [->|Hne].
  { cbn [field_type]. intros _ Hco.
    destruct x; cbn in Hco; try discriminate Hco;
      destruct (forallb is_type l) eqn:Hl; try discriminate Hco;
      injection Hco as <-; unfold stored_ok; cbn;
      destruct (fold_set_add_types l [] Hl eq_refl eq_refl) as [H1 H2];
      unfold to_set; now rewrite H1, H2. }
  destruct f; try congruence; clear Hne; cbn [pre_validate field_type];
    unfold validate_display_max_rows, validate_display_max_columns,
      validate_html_table_schema, push_and_return, pd_set_option.
  all: try (destruct (lt0 v) as [[]|] eqn:Hlt; try discriminate).
  all: try (destruct (pd_accepts _ v) eqn:Hpd; try discriminate).
  all: intros [= <- <-].
  all: destruct v; cbn in *; try discriminate;
    repeat match goal with
           | |- context [?f <$> ?o] => destruct o; cbn
           | |- context [if ?b then _ else _] => destruct b; cbn
           end;
    try discriminate; intros [= <-]; try reflexivity; try assumption;
    match goal with b : bool |- _ => now destruct b end.
Qed.

Lemma setattr_valid f v w r w' :
  valid (settings w) = true ->
  setattr f v w = (r, w') ->
  valid (settings w') = true.
Proof.
  intros Hv. unfold setattr.
  destruct (pre_validate_frame f v w) as (HS & _).
  destruct (pre_validate f v w) as [[x|e] w1] eqn:E; cbn in HS.
  - destruct (coerce (field_type f) x) as [v'|] eqn:Hco; intros [= <- <-]; cbn;
      rewrite ?HS; trivial.
    eapply valid_store; [exact Hv| |reflexivity].
    eapply validated_stored_ok; eassumption.
  - intros [= <- <-]. now rewrite HS.
Qed.

Lemma call_valid c w r w' :
  valid (settings w) = true ->
  call c w = (r, w') ->
  valid (settings w') = true.
Proof.
  intros Hv. destruct (call_stored c w) as (w0 & E & _ & S & _).
  rewrite E. intros [= <- <-]. apply valid_pointwise. intros g. rewrite S.
  apply after_resets_stored_ok. now apply valid_stored_ok.
Qed.

Lemma set_display_mode_valid v w r w' :
  valid (settings w) = true ->
  set_display_mode v w = (r, w') ->
  valid (settings w') = true.
Proof.
  intros Hv. unfold set_display_mode, bind.
  destruct (setattr DISPLAY_MODE v w) as [[[]|e] w1] eqn:E;
    apply setattr_valid in E; trivial; [|now intros [= <- <-]].
  repeat case_bool_decide; try (now apply call_valid).
  intros [= <- <-]; exact E.
Qed.

(** Whatever the key and the value, and whether it returns or raises,
    [set_option] leaves a valid configuration valid. *)
Lemma set_option_valid key value w r w' :
  valid (settings w) = true ->
  set_option key value w = (r, w') ->
  valid (settings w') = true.
Proof.
  intros Hv. unfold set_option.
  destruct (field_of_name (upper key)) as [f|]; [|now intros [= <- <-]].
  unfold bind.
  destruct (setattr f value w) as [[[]|e] w1] eqn:E1;
    apply setattr_valid in E1; trivial; [|now intros [= <- <-]].
  destruct (match pd_options f with
            | Some k => pandas_set_option k value
            | None => ret tt
            end w1) as [r2 w2] eqn:E2.
  assert (S2 : settings w2 = settings w1).
  { destruct (pd_options f).
    - now apply pandas_set_option_frame in E2 as (_ & _ & ?).
    - now injection E2 as <- <-. }
  rewrite <- S2 in E1. destruct r2 as [[]|e]; [|now intros [= <- <-]].
  destruct (bool_decide (f = DISPLAY_MODE)).
  - destruct (set_display_mode value w2) as [[[]|e] w3] eqn:E3;
      apply set_display_mode_valid in E3; trivial; [|now intros [= <- <-]].
    destruct (bool_decide (f = LOG_LEVEL)).
    + intros E4. apply set_log_level_frame in E4 as [_ S4]. now rewrite S4.
    + now intros [= <- <-].
  - cbn. destruct (bool_decide (f = LOG_LEVEL)).
    + intros E4. apply set_log_level_frame in E4 as [_ S4]. now rewrite S4.
    + now intros [= <- <-].
Qed.

Lemma set_options_valid d w r w' :
  valid (settings w) = true ->
  set_options d w = (r, w') ->
  valid (settings w') = true.
Proof.
  revert w. induction d as [|[k v] d IH]; intros w Hv.
  - now intros [= <- <-].
  - cbn [set_options]. unfold bind.
    destruct (set_option k v w) as [[[]|e] w1] eqn:E1;
      apply set_option_valid in E1; trivial; [|now intros [= <- <-]].
    now apply IH.
Qed.

(** Adding types to the renderable objects keeps the configuration valid. *)
Lemma add_renderable_type_valid L w r w' :
  forallb is_type L = true ->
  valid (settings w) = true ->
  add_renderable_type (PList L) w = (r, w') ->
  valid (settings w') = true.
Proof.
  intros HL Hv. unfold add_renderable_type.
  pose proof (valid_stored_ok _ RENDERABLE_OBJECTS Hv) as Hok.
  destruct (settings w RENDERABLE_OBJECTS) as [| | | | | | | | |S] eqn:ES;
    try discriminate Hok.
  unfold stored_ok in Hok. cbn in Hok. apply andb_prop in Hok as [HtS HdS].
  assert (H : forall l s, forallb is_type l = true ->
            forallb is_type s = true -> distinct s = true ->
            forallb is_type (snd (set_update l s)) = true /\
            distinct (snd (set_update l s)) = true).
  { clear. induction l as [|x l IH]; intros s Hl Hs Hd; [now split|].
    cbn in Hl. apply andb_prop in Hl as [Hx Hl].
    destruct x; try discriminate Hx. cbn. apply IH; trivial.
    - now apply set_add_type_types.
    - now apply set_add_type_distinct. }
  destruct (H L S HL HtS HdS) as [H1 H2].
  destruct (set_update L S) as [r1 s']. cbn in H1, H2.
  intros [= <- <-]. cbn.
  eapply valid_store; [exact Hv| |reflexivity].
  unfold stored_ok. cbn. now rewrite H1, H2.
Qed.


(** * Further properties of the option setter *)

(** A refused assignment leaves the world as it was: no validator pushes a
    value to pandas that pydantic then refuses. *)
Lemma setattr_raise f v w e w' :
  setattr f v w = (Raise e, w') ->
  w' = w /\ exists r, e = ValidationError f r.
Proof.
  unfold setattr.
  destruct f; cbn [pre_validate field_type];
    unfold validate_display_max_rows, validate_display_max_columns,
      validate_html_table_schema, push_and_return, pd_set_option.
  all: try (destruct (lt0 v) as [[]|] eqn:Hlt).
  all: try (destruct (pd_accepts _ v) eqn:Hpd).
  all: try (destruct (validate_renderables v) eqn:Hval).
  all: try (intros [= <- <-]; split; [reflexivity|eauto]; fail).
  all: try (destruct (coerce _ _) eqn:Hco;
            intros [= <- <-]; split; [reflexivity|eauto]; fail).
  all: destruct v; cbn in Hlt, Hpd |- *; try discriminate.
Qed.

Lemma setattr_ok f v w w' :
  setattr f v w = (Ok tt, w') ->
  exists x v',
    fst (pre_validate f v w) = inl x /\
    coerce (field_type f) x = Some v' /\
    w' = with_settings (store f v' (settings (snd (pre_validate f v w))))
                       (snd (pre_validate f v w)).
Proof.
  unfold setattr. destruct (pre_validate f v w) as [[x|r] w1]; [|discriminate].
  destruct (coerce (field_type f) x) as [v'|] eqn:Hco; [|discriminate].
  intros [= <-]. exists x, v'. repeat split. exact Hco.
Qed.



(** X2. the mirrored options.  When [set_option] returns on a field that
    pandas mirrors, the pandas option holds the value that was given, and
    that value is equal, as Python compares, to the value now stored in the
    field. *)
Theorem set_option_mirrors key f k value w w' :
  field_of_name (upper key) = Some f ->
  pd_options f = Some k ->
  set_option key value w = (Ok tt, w') ->
  pandas w' k = value /\
  py_eqb value (settings w' f) = true.
Proof.
  intros Hf Hk. unfold set_option. rewrite Hf. unfold bind.
  destruct f; try discriminate Hk; injection Hk as <-;
    unfold setattr; cbn [pre_validate field_type pd_options];
    unfold validate_display_max_rows, validate_display_max_columns,
      validate_html_table_schema, push_and_return, pandas_set_option,
      pd_set_option.
  all: try (destruct (lt0 value) as [[]|] eqn:Hlt; try discriminate).
  all: destruct (pd_accepts _ value) eqn:Hpd; try discriminate.
  all: destruct value; cbn in Hlt, Hpd |- *; try discriminate.
  all: try rewrite Hpd; cbn; intros [= <-]; cbn; split; trivial.
  all: try apply Z.eqb_refl; try apply Z.eqb_refl.
  all: now destruct b.
Qed.

(** X3. the log level.  An integer given for [LOG_LEVEL], under any casing
    of the key, is stored in the field and passed to the [dx] logger;
    nothing else changes. *)
Theorem set_option_log_level key z w :
  upper key = "LOG_LEVEL" ->
  exists w',
    set_option key (PInt z) w = (Ok tt, w') /\
    settings w' LOG_LEVEL = PInt z /\
    dx_log_level w' = PInt z /\
    (forall g, g <> LOG_LEVEL -> settings w' g = settings w g) /\
    pandas w' = pandas w /\
    formatters w' = formatters w.
Proof.
  intros Hkey. unfold set_option. rewrite Hkey. cbn.
  eexists. split; [reflexivity|]. cbn. repeat split.
  intros g Hg. unfold store. now case_decide.
Qed.

(** X4. [set_option] is not atomic on [LOG_LEVEL].  A value that pydantic
    turns into an integer but that [logging] does not take as a level (a
    float, or a string of digits) is stored in the field first; then
    [set_log_level] raises, so the call fails with the field already
    changed and the logger's level not. *)
Theorem set_option_log_level_partial key value z w :
  upper key = "LOG_LEVEL" ->
  coerce TInt value = Some (PInt z) ->
  match value with
  | PFloat _ => True
  | PStr s => level_of_name s = None
  | _ => False
  end ->
  exists w',
    set_option key value w = (Raise (LoggingError value), w') /\
    settings w' LOG_LEVEL = PInt z /\
    dx_log_level w' = dx_log_level w.
Proof.
  intros Hkey Hco Hv. unfold set_option. rewrite Hkey.
  change (field_of_name "LOG_LEVEL") with (Some LOG_LEVEL).
  unfold bind, setattr. cbn [pre_validate field_type fst snd].
  rewrite Hco. cbn [pd_options]. unfold ret, set_log_level.
  destruct value; try contradiction.
  - eexists. split; [reflexivity|]. split; reflexivity.
  - rewrite Hv. eexists. split; [reflexivity|]. split; reflexivity.
Qed.


Lemma coerce_int_PInt v v' : coerce TInt v = Some v' -> exists z, v' = PInt z.
Proof.
  destruct v; cbn; try discriminate.
  - intros [= <-]. eauto.
  - intros [= <-]. eauto.
  - destruct (int_of_float x); cbn; [|discriminate]. intros [= <-]. eauto.
  - destruct (int_of_str s); cbn; [|discriminate]. intros [= <-]. eauto.
Qed.

Lemma coerce_mode_as_mode v : coerce TMode v = PMode <$> as_mode v.
Proof. destruct v; reflexivity. Qed.

Section ErrorsOfSetOption.
Hypothesis Hstr : str_is_value.


(** X6. the display mode through the option setter.  [set_option] on the
    display-mode field, under any casing of the key, does what the mode
    controller does: for a member of [DXDisplayMode] or the value of one it
    stores the member and makes the one formatter call of that mode; the
    other fields, the pandas options and the log level change only as that
    formatter sets them.  For any other value it raises the validation error
    of the field and the world stays as it was. *)
Theorem set_option_display_mode key value w :
  upper key = "DISPLAY_MODE" ->
  match as_mode value with
  | Some m =>
      exists w',
        set_option key value w = (Ok tt, w') /\
        settings w' DISPLAY_MODE = PMode m /\
        formatters w' = formatters w ++ [mode_call m] /\
        (forall g, g <> DISPLAY_MODE ->
           settings w' g = after_resets (mode_resets (mode_call m)) (settings w) g) /\
        (forall k, pandas w' k =
           default (pandas w k)
             (last_reset (mode_resets (mode_call m)) (pd_field k))) /\
        dx_log_level w' =
          default (dx_log_level w)
            (last_reset (mode_resets (mode_call m)) LOG_LEVEL)
  | None =>
      set_option key value w = (Raise (ValidationError DISPLAY_MODE NotOfType), w)
  end.
Proof.
  intros Hkey. unfold set_option. rewrite Hkey.
  change (field_of_name "DISPLAY_MODE") with (Some DISPLAY_MODE).
  unfold bind, setattr. cbn [pre_validate field_type pd_options].
  rewrite coerce_mode_as_mode.
  destruct (as_mode value) as [m|] eqn:Hm; [|reflexivity].
  cbn [fmap option_fmap option_map]. unfold ret.
  rewrite (bool_decide_eq_true_2 (DISPLAY_MODE = DISPLAY_MODE) eq_refl).
  rewrite (bool_decide_eq_false_2 (DISPLAY_MODE = LOG_LEVEL)) by discriminate.
  cbv beta iota.
  destruct (set_display_mode_stored Hstr value m
              (with_settings (store DISPLAY_MODE (PMode m) (settings w)) w) Hm)
    as (w' & E & F & S & P & L).
  rewrite E. exists w'. split; [reflexivity|].
  split; [|split; [exact F|split; [|split; [exact P|exact L]]]].
  - rewrite S, after_resets_mode. unfold store. now case_decide.
  - intros g Hg. rewrite S. unfold after_resets.
    destruct (last_reset _ g); [reflexivity|]. cbn. unfold store.
    now repeat case_decide.
Qed.

End ErrorsOfSetOption.

(** * Further properties of the renderable objects *)

(** X8. a list is refused.  A list given for the renderable objects, even a
    list of types, is refused under any casing of the key: the validator
    wraps what is not a set in a set literal, and a list cannot be an element
    of a set.  The error names no element and nothing changes. *)
Theorem list_renderables_rejected key l w :
  upper key = "RENDERABLE_OBJECTS" ->
  set_option key (PList l) w
  = (Raise (ValidationError RENDERABLE_OBJECTS RaisedTypeError), w).
Proof.
  intros Hkey. unfold set_option. rewrite Hkey. reflexivity.
Qed.

Lemma renderables_loop_resolve l l' acc :
  mapM resolve l = Some l' ->
  renderables_loop l acc = inl (fold_left (fun a x => set_add x a) l' acc).
Proof.
  revert l' acc. induction l as [|val l IH]; intros l' acc.
  - intros [= <-]. reflexivity.
  - cbn [mapM]. destruct (resolve val) as [t|] eqn:Hr; [|discriminate].
    cbn [mbind option_bind]. destruct (mapM resolve l) as [l0|]; [|discriminate].
    cbn. intros [= <-]. cbn [fold_left].
    unfold resolve in Hr.
    destruct val; try (injection Hr as <-; cbn; now apply IH).
    all: cbn [renderables_loop];
      destruct (py_str _ ≫= py_eval) as [u|]; try discriminate Hr;
      destruct (hashable u); try discriminate Hr;
      injection Hr as <-; now apply IH.
Qed.



Lemma existsb_type_in n s : In (PType n) s -> existsb (py_eqb (PType n)) s = true.
Proof.
  intros H. apply existsb_exists. exists (PType n). split; [exact H|].
  cbn. apply String.eqb_refl.
Qed.

Lemma set_update_present l s :
  forallb is_type l = true ->
  (forall x, In x l -> In x s) ->
  set_update l s = (Ok tt, s).
Proof.
  induction l as [|x l IH]; intros Hl Hin; [reflexivity|].
  cbn in Hl. apply andb_prop in Hl as [Hx Hl]. destruct x; try discriminate Hx.
  cbn [set_update hashable]. unfold set_add.
  rewrite existsb_type_in by (apply Hin; now left).
  apply IH; trivial. intros y Hy. apply Hin. now right.
Qed.

(** X11. adding is idempotent.  Adding a list of types a second time changes
    nothing: after [add_renderable_type(L)], another [add_renderable_type(L)]
    returns and leaves the renderable objects as they are. *)
Theorem add_renderable_type_twice S L w w1 :
  settings w RENDERABLE_OBJECTS = PSet S ->
  forallb is_type L = true ->
  add_renderable_type (PList L) w = (Ok tt, w1) ->
  exists w2,
    add_renderable_type (PList L) w1 = (Ok tt, w2) /\
    forall g, settings w2 g = settings w1 g.
Proof.
  intros HS HL. unfold add_renderable_type. rewrite HS.
  destruct (set_update_types L S HL) as (S' & E & Hin & _). rewrite E.
  intros H1.
  assert (Hs : settings w1 RENDERABLE_OBJECTS = PSet S')
    by (injection H1 as <-; reflexivity).
  rewrite Hs, set_update_present; trivial.
  - eexists. split; [reflexivity|]. cbn. intros g. unfold store.
    case_decide; subst; auto.
  - intros x Hx. apply Hin. now right.
Qed.

(** X12. an unhashable element stops the update half way.  When the list
    holds some types and then an element that cannot be hashed (a list or a
    set), [add_renderable_type] raises [TypeError]; the types before that
    element have been added, the elements after it have not.  A set given
    in place of a list is such an element on its own: nothing is added. *)
Theorem add_renderable_type_unhashable S pre x rest w :
  settings w RENDERABLE_OBJECTS = PSet S ->
  forallb is_type pre = true ->
  hashable x = false ->
  exists w' S',
    add_renderable_type (PList (pre ++ x :: rest)) w = (Raise PyTypeError, w') /\
    settings w' RENDERABLE_OBJECTS = PSet S' /\
    (forall y, In y S' <-> In y S \/ In y pre) /\
    (forall g, g <> RENDERABLE_OBJECTS -> settings w' g = settings w g).
Proof.
  intros HS Hpre Hx. unfold add_renderable_type. rewrite HS.
  assert (H : forall s, exists s',
            set_update (pre ++ x :: rest) s = (Raise PyTypeError, s') /\
            (forall y, In y s' <-> In y s \/ In y pre)).
  { clear HS. induction pre as [|p pre IH]; intros s.
    - exists s. cbn. rewrite Hx. split; [reflexivity|]. tauto.
    - cbn in Hpre. apply andb_prop in Hpre as [Hp Hpre].
      destruct p; try discriminate Hp. cbn [app set_update hashable].
      destruct (IH Hpre (set_add (PType name) s)) as (s' & E & Hin).
      exists s'. split; [exact E|].
      intros y. rewrite Hin, set_add_type_in. cbn. intuition congruence. }
  destruct (H S) as (S' & E & Hin). rewrite E.
  eexists _, S'. split; [reflexivity|]. cbn. split; [reflexivity|].
  split; [exact Hin|].
  intros g Hg. unfold store. now case_decide.
Qed.

(** * Further properties of the scoped override context *)

Lemma upper_keys_snoc option_kwargs kv :
  upper_keys (option_kwargs ++ [kv])
  = dict_set (upper (fst kv)) (snd kv) (upper_keys option_kwargs).
Proof. unfold upper_keys. now rewrite fold_left_app. Qed.

Lemma dict_get_set k k' v d :
  dict_get k (dict_set k' v d)
  = if String.eqb k' k then Some v else dict_get k d.
Proof.
  unfold dict_get. induction d as [|[k0 v0] d IH]; cbn [dict_set].
  - cbn. now destruct (String.eqb k' k).
  - destruct (String.eqb k0 k') eqn:E0.
    + apply String.eqb_eq in E0 as ->. cbn.
      now destruct (String.eqb k' k).
    + cbn [find fst]. destruct (String.eqb k0 k) eqn:E1.
      * apply String.eqb_eq in E1 as ->. rewrite String.eqb_sym, E0. reflexivity.
      * exact IH.
Qed.

(** X14. the last spelling wins.  The keyword arguments are keyed by their
    upper-cased names, so of several arguments whose names differ only in
    case the dictionary keeps one entry, with the value of the last one: for
    every canonical key, the dictionary binds it to what the last argument
    of that name gave, or to nothing if there is none. *)
Theorem upper_keys_last_binding k option_kwargs :
  dict_get k (upper_keys option_kwargs) = last_binding k option_kwargs.
Proof.
  induction option_kwargs as [|[k' v] kw IH] using rev_ind; [reflexivity|].
  rewrite upper_keys_snoc, dict_get_set, IH. cbn [fst snd].
  unfold last_binding. rewrite List.filter_app. cbn [List.filter fst].
  destruct (String.eqb (upper k') k).
  - now rewrite last_snoc.
  - now rewrite app_nil_r.
Qed.

(** X15. a refused override keeps the block from running.  When the display
    mode or one of the other overrides is refused on entry, the caller's
    block is not run: the scope ends the same way whatever the block is. *)
Theorem settings_context_block_not_run option_kwargs body body' w e :
  fst (scope_block option_kwargs (ret tt) w) = Raise e ->
  settings_context option_kwargs body w = settings_context option_kwargs body' w.
Proof.
  unfold scope_block, settings_context, bind, try_finally.
  match goal with
  | |- context [(if py_truthy ?d then ?a else ?b) w] =>
      destruct ((if py_truthy d then a else b) w) as [[[]|e1] w1]
  end; [|reflexivity].
  match goal with
  | |- context [set_options ?d w1] =>
      destruct (set_options d w1) as [[[]|e2] w2]
  end; [discriminate|reflexivity].
Qed.

Section ScopeOutcome.
Hypothesis Hstr : str_is_value.

(** X16. the restoration does not change how the scope ends.  From a valid
    configuration, [settings_context] returns or raises exactly as the
    overrides followed by the block do: an exception of the block, or of a
    refused override, comes out unchanged, and the restoring loop adds no
    error of its own. *)
Theorem settings_context_outcome option_kwargs body w :
  valid (settings w) = true ->
  fst (settings_context option_kwargs body w)
  = fst (scope_block option_kwargs body w).
Proof.
  intros Hv. destruct (valid_mode _ Hv) as [m Hm].
  unfold scope_block, settings_context, bind, try_finally.
  match goal with
  | |- context [(if py_truthy ?d then ?a else ?b) w] =>
      destruct ((if py_truthy d then a else b) w) as [[[]|e1] w1]
  end; [|reflexivity].
  match goal with
  | |- context [set_options ?d w1] =>
      destruct (set_options d w1) as [[[]|e2] w2]
  end.
  - destruct (body w2) as [r3 w3].
    destruct (restore_snapshot Hstr (settings w) m w3 Hv Hm) as (w4 & E & _).
    now rewrite E.
  - destruct (restore_snapshot Hstr (settings w) m w2 Hv Hm) as (w4 & E & _).
    now rewrite E.
Qed.

(** X17. what leaving a scope does to the logger and to the formatters.
    From a valid configuration: when the display-mode override is refused on
    entry, the scope raises the validation error of the display-mode field
    and the world is the one before; otherwise, leaving the scope sets the
    level of the [dx] logger to the [LOG_LEVEL] field, whatever the level was
    before or inside the scope, and makes exactly one formatter call after
    the block, the one of the restored display mode. *)
Theorem settings_context_exit_effects option_kwargs body w r w' :
  valid (settings w) = true ->
  settings_context option_kwargs body w = (r, w') ->
  if refused_on_entry option_kwargs
  then r = Raise (ValidationError DISPLAY_MODE NotOfType) /\ w' = w
  else dx_log_level w' = settings w LOG_LEVEL /\
       exists m,
         settings w DISPLAY_MODE = PMode m /\
         formatters w'
         = formatters (snd (scope_block option_kwargs body w)) ++ [mode_call m].
Proof.
  intros Hv. destruct (valid_mode _ Hv) as [m Hm].
  assert (Hfin : forall p : result unit * world,
    match p with
    | (r1, w2) =>
        match set_options (dict (settings w)) w2 with
        | (Ok _, w3) => (r1, w3)
        | (Raise e, w3) => (Raise e, w3)
        end
    end = (r, w') ->
    dx_log_level w' = settings w LOG_LEVEL /\
    exists m,
      settings w DISPLAY_MODE = PMode m /\
      formatters w' = formatters (snd p) ++ [mode_call m]).
  { intros [r1 w2].
    destruct (restore_snapshot Hstr (settings w) m w2 Hv Hm) as (w3 & E & _ & _ & F & L).
    rewrite E. intros [= <- <-]. split; [exact L|].
    exists m. split; [exact Hm|exact F]. }
  unfold refused_on_entry, scope_block, settings_context, bind, try_finally.
  destruct (py_truthy _) eqn:Ht; cbn [andb].
  - rewrite (set_display_mode_spec Hstr).
    destruct (as_mode _) as [m'|] eqn:Hd.
    + rewrite (bool_decide_eq_true_2 (is_Some (Some m'))) by eauto. cbn [negb].
      match goal with
      | |- context [call ?c ?x] =>
          destruct (call_stored c x) as (w1 & E1 & _); rewrite E1
      end.
      apply Hfin.
    + rewrite (bool_decide_eq_false_2 (is_Some None)) by (intros [? ?]; discriminate).
      cbn [negb]. intros [= <- <-]. now split.
  - cbn. apply Hfin.
Qed.

End ScopeOutcome.

(** * Validity as an invariant of the operations *)


(** X13. adding types keeps the configuration valid.  After
    [add_renderable_type] with a list of types the configuration is still
    valid: the renderable objects are a set of types without repetition. *)
Theorem add_renderable_type_keeps_valid L w r w' :
  forallb is_type L = true ->
  valid (settings w) = true ->
  add_renderable_type (PList L) w = (r, w') ->
  r = Ok tt /\ valid (settings w') = true.
Proof.
  intros HL Hv E. split; [|eapply add_renderable_type_valid; eassumption].
  unfold add_renderable_type in E.
  destruct (settings w RENDERABLE_OBJECTS) as [| | | | | | | | |S] eqn:ES.
  all: try (pose proof (valid_stored_ok _ RENDERABLE_OBJECTS Hv) as Ho;
            rewrite ES in Ho; discriminate Ho).
  destruct (set_update_types L S HL) as (S' & E' & _). rewrite E' in E.
  now injection E as <- _.
Qed.

(** X18. a scope keeps the configuration valid.  If the caller's block keeps
    a valid configuration valid, so does the whole scope, whatever the
    overrides and however the scope ends; this holds whatever [str()] gives
    on a display mode. *)
Theorem settings_context_keeps_valid option_kwargs body w r w' :
  (forall w1 r1 w2, valid (settings w1) = true -> body w1 = (r1, w2) ->
                    valid (settings w2) = true) ->
  valid (settings w) = true ->
  settings_context option_kwargs body w = (r, w') ->
  valid (settings w') = true.
Proof.
  intros Hbody Hv. unfold settings_context, bind, try_finally.
  assert (Hfin : forall p : result unit * world,
    valid (settings (snd p)) = true ->
    match p with
    | (r1, w2) =>
        match set_options (dict (settings w)) w2 with
        | (Ok _, w3) => (r1, w3)
        | (Raise e, w3) => (Raise e, w3)
        end
    end = (r, w') ->
    valid (settings w') = true).
  { intros [r1 w2] Hv2. cbn in Hv2.
    destruct (set_options (dict (settings w)) w2) as [[[]|e] w3] eqn:E;
      apply set_options_valid in E; trivial; now intros [= <- <-]. }
  assert (Hblock : forall d w1, valid (settings w1) = true ->
    valid (settings (snd (match set_options d w1 with
                          | (Ok _, w2) => body w2
                          | (Raise e, w2) => (Raise e, w2)
                          end))) = true).
  { intros d w1 Hv1.
    destruct (set_options d w1) as [[[]|e] w2] eqn:E;
      apply set_options_valid in E; trivial.
    destruct (body w2) as [r3 w3] eqn:Eb. cbn. eapply Hbody; eassumption. }
  match goal with
  | |- context [(if py_truthy ?d then ?a else ?b) w] =>
      destruct ((if py_truthy d then a else b) w) as [r1 w1] eqn:E1;
      assert (Hv1 : valid (settings w1) = true)
  end.
  { destruct (py_truthy _).
    - eapply set_display_mode_valid; eassumption.
    - now injection E1 as <- <-. }
  destruct r1 as [[]|e1]; [|now intros [= <- <-]].
  intros H. eapply Hfin; [|exact H]. now apply Hblock.
Qed.

(** * Further edge cases of the option setter *)

(** X19. what cannot be compared with zero is refused for the display limits.
    For the row and the column maximum, a value on which [val < 0] raises
    ([None], a string, a list, a set, a type, an enumeration member) is
    refused with the validation error of the field, before pandas or the
    type coercion sees it, and nothing changes: [None] does not lift a
    limit and the text of a number is not converted. *)
Theorem set_option_limit_not_comparable key f value w :
  upper key = field_name f ->
  f = DISPLAY_MAX_ROWS \/ f = DISPLAY_MAX_COLUMNS ->
  lt0 value = None ->
  set_option key value w = (Raise (ValidationError f RaisedTypeError), w).
Proof.
  intros Hkey Hf Hv. unfold set_option. rewrite Hkey, field_of_name_name.
  destruct Hf as [-> | ->]; unfold bind, setattr; cbn [pre_validate];
    unfold validate_display_max_rows, validate_display_max_columns;
    rewrite Hv; reflexivity.
Qed.

(** X20. the table-schema flag takes a [bool] only.  [set_option] on
    [HTML_TABLE_SCHEMA] with a [bool] returns, stores it and sets the pandas
    option to it; with any other value, also one that pydantic would read
    as a boolean, the validator's push to pandas is refused and the call
    raises the validation error of the field with nothing changed. *)
Theorem set_option_table_schema key value w :
  upper key = "HTML_TABLE_SCHEMA" ->
  match value with
  | PBool b =>
      exists w',
        set_option key value w = (Ok tt, w') /\
        settings w' HTML_TABLE_SCHEMA = PBool b /\
        pandas w' html_table_schema = PBool b
  | _ =>
      set_option key value w
      = (Raise (ValidationError HTML_TABLE_SCHEMA EngineRejected), w)
  end.
Proof.
  intros Hkey. unfold set_option. rewrite Hkey.
  destruct value; try reflexivity.
  eexists. split; [reflexivity|]. split; reflexivity.
Qed.

End Properties.

(** * The properties on the demonstration runtime *)

Import Demo.

(** ** Runs of the model *)

Example set_option_rows_5 :
  let w' := snd (set_option "display_max_rows" (PInt 5) fresh) in
  fst (set_option "display_max_rows" (PInt 5) fresh) = Ok tt /\
  settings w' DISPLAY_MAX_ROWS = PInt 5 /\
  pandas w' display_max_rows = PInt 5.
Proof. repeat split. Qed.

(** A set whose elements are strings is parsed element by element. *)
Example set_of_names_parsed :
  let w' := snd (set_option "renderable_objects" (PSet [PStr "int"; PStr "str"]) fresh) in
  settings w' RENDERABLE_OBJECTS = PSet [PType "int"; PType "str"].
Proof. reflexivity. Qed.

(** An element that evaluates to something that is not a type is refused by
    pydantic, in an error that does not name it. *)
Example set_with_literal_refused :
  set_option "renderable_objects" (PSet [PStr "5"]) fresh
  = (Raise (ValidationError RENDERABLE_OBJECTS NotOfType), fresh).
Proof. reflexivity. Qed.

Example fresh_valid : valid (settings fresh) = true.
Proof. reflexivity. Qed.

Example fresh_mirrored : mirrored fresh.
Proof. intros []; reflexivity. Qed.

(** When [str()] of a member is not its value, as for a bare [enum.Enum],
    the restoring loop of an empty scope stops at the display mode: the mode
    controller stores the member and then finds no branch for it. *)
Example restoration_needs_str_is_value :
  fst (@settings_context plain_enum plain_enum_eval plain_enum_formatters
         [] (ret tt) plain_enum_fresh)
  = Raise (UnsupportedDisplayMode (PMode simple)).
Proof. reflexivity. Qed.

(** A display-mode override that names no mode is refused on entry: the
    scope raises and nothing has changed. *)
Example scope_refused_on_entry :
  refused_on_entry fancy_mode = true /\
  settings_context fancy_mode (ret tt) fresh
  = (Raise (ValidationError DISPLAY_MODE NotOfType), fresh).
Proof. split; reflexivity. Qed.

(** After [add_renderable_type(["DataFrame"])] the set holds a string that
    [eval] cannot resolve.  A scope entered in that state overrides the
    random state, and its restoring loop stops at the renderable objects,
    which the validator refuses: the scope raises, and the random state
    keeps the override. *)
Example restoration_stops_at_unresolved_name :
  let out := settings_context [("random_state", PInt 1)] (ret tt) raw_name_world in
  settings raw_name_world RANDOM_STATE = PInt 12648430 /\
  fst out
  = Raise (ValidationError RENDERABLE_OBJECTS (CantEvaluate (PStr "DataFrame"))) /\
  settings (snd out) RANDOM_STATE = PInt 1.
Proof. repeat split. Qed.

(** ** Instances of the theorems *)

(** On [runtime], [str()] of a display mode is its value. *)
Lemma runtime_str_is_value : @str_is_value runtime.
Proof. intros m. reflexivity. Defined.

Lemma set_option_unknown_witness :
  field_of_name (upper "max_rows") = None /\
  set_option "max_rows" (PInt 5) fresh = (Raise (UnknownSetting "MAX_ROWS"), fresh).
Proof.
  split; [reflexivity|].
  apply (set_option_unknown "max_rows" (PInt 5) fresh). reflexivity.
Defined.

Lemma set_option_negative_witness :
  set_option "display_max_rows" (PInt (-1)) fresh
  = (Raise (ValidationError DISPLAY_MAX_ROWS MustBeNonNegative), fresh).
Proof.
  apply (set_option_negative "display_max_rows" DISPLAY_MAX_ROWS (-1) fresh).
  - reflexivity.
  - left. reflexivity.
  - reflexivity.
Defined.

Lemma set_option_nonnegative_witness :
  exists w',
    set_option "Display_Max_Columns" (PInt 7) fresh = (Ok tt, w') /\
    settings w' DISPLAY_MAX_COLUMNS = PInt 7 /\
    pandas w' display_max_columns = PInt 7.
Proof.
  destruct (set_option_nonnegative "Display_Max_Columns" DISPLAY_MAX_COLUMNS
              display_max_columns 7 fresh) as (w' & E & S & P & _).
  - reflexivity.
  - right. split; reflexivity.
  - discriminate.
  - exists w'. repeat split; assumption.
Defined.

Lemma set_display_mode_one_call_witness :
  exists w',
    set_display_mode (PStr "enhanced") fresh = (Ok tt, w') /\
    formatters w' = formatters fresh ++ [register] /\
    settings w' DISPLAY_MODE = PMode enhanced.
Proof.
  exact (set_display_mode_one_call runtime_str_is_value (PStr "enhanced") fresh).
Defined.

(** The row maximum is 5 when an empty scope is entered, and when the scope
    is left it is what the formatter of the [simple] mode sets, in the field
    and in pandas. *)
Lemma settings_context_exit_fields_witness :
  settings fresh_rows_5 DISPLAY_MAX_ROWS = PInt 5 /\
  fst (settings_context [] (ret tt) fresh_rows_5) = Ok tt /\
  settings (snd (settings_context [] (ret tt) fresh_rows_5)) DISPLAY_MAX_ROWS
  = PInt 100000 /\
  pandas (snd (settings_context [] (ret tt) fresh_rows_5)) display_max_rows
  = PInt 100000.
Proof.
  destruct (settings_context_exit_fields runtime_str_is_value [] (ret tt)
              fresh_rows_5
              (fst (settings_context [] (ret tt) fresh_rows_5))
              (snd (settings_context [] (ret tt) fresh_rows_5)) simple)
    as (_ & HR & _ & _ & HP & _).
  - reflexivity.
  - reflexivity.
  - reflexivity.
  - apply surjective_pairing.
  - assert (H : settings (snd (settings_context [] (ret tt) fresh_rows_5))
                  DISPLAY_MAX_ROWS = PInt 100000).
    { apply HR; [repeat constructor|reflexivity]. }
    split; [reflexivity|]. split; [reflexivity|]. split; [exact H|].
    rewrite HP. exact H.
Defined.

(** Two nested scopes on the row maximum, 5 outside and 7 inside, from the
    fresh configuration, where it is 60: after the inner scope it is not 5,
    and after the outer scope it is not 60. *)
Lemma nested_scopes_reset_witness :
  exists w1 w2,
    settings w1 DISPLAY_MAX_ROWS = PInt 5 /\
    settings w2 DISPLAY_MAX_ROWS = PInt 7 /\
    forall rb wb, ret tt w2 = (rb, wb) ->
      exists w3,
        inner_rows_7 w1 = (rb, w3) /\
        settings w3 DISPLAY_MAX_ROWS = PInt 100000 /\
        forall ro wo, (run inner_rows_7; ret tt) w1 = (ro, wo) ->
          exists w4,
            settings_context rows_5 (run inner_rows_7; ret tt) fresh = (ro, w4) /\
            settings w4 DISPLAY_MAX_ROWS = PInt 100000.
Proof.
  apply (nested_scopes_reset runtime_str_is_value
           "display_max_rows" "DISPLAY_MAX_ROWS" DISPLAY_MAX_ROWS
           (PInt 5) (PInt 7) (PInt 100000) (ret tt) (ret tt) fresh simple).
  - reflexivity.
  - reflexivity.
  - repeat constructor.
  - reflexivity.
  - reflexivity.
  - reflexivity.
  - reflexivity.
  - reflexivity.
Defined.

Lemma add_renderable_type_union_witness :
  exists w' S',
    add_renderable_type (PList [PType "int"; PType "str"]) fresh = (Ok tt, w') /\
    settings w' RENDERABLE_OBJECTS = PSet S' /\
    forall x, In x S' <-> In x [] \/ In x [PType "int"; PType "str"].
Proof.
  destruct (add_renderable_type_union [] [PType "int"; PType "str"] fresh)
    as (w' & S' & E & HS & Hin & _).
  - reflexivity.
  - reflexivity.
  - exists w', S'. repeat split; try assumption; apply Hin.
Defined.



(** ** Where the specification and the code part *)

(** C4 as stated fails: a value outside the enumeration does not reach the
    branch that raises "is not a supported display mode"; the assignment to
    [settings.DISPLAY_MODE] refuses it first. *)
Lemma set_display_mode_counterexample :
  as_mode (PStr "fancy") = None /\
  set_display_mode (PStr "fancy") fresh
  = (Raise (ValidationError DISPLAY_MODE NotOfType), fresh) /\
  forall mode, fst (set_display_mode (PStr "fancy") fresh)
               <> Raise (UnsupportedDisplayMode mode).
Proof.
  split; [reflexivity|]. split; [reflexivity|]. intros mode. discriminate.
Qed.


(** ** Instances of the further properties *)


Lemma set_option_mirrors_witness :
  pandas (snd (set_option "display_max_rows" (PBool true) fresh)) display_max_rows
  = PBool true /\
  py_eqb (PBool true)
         (settings (snd (set_option "display_max_rows" (PBool true) fresh))
                   DISPLAY_MAX_ROWS) = true.
Proof.
  apply (set_option_mirrors "display_max_rows" DISPLAY_MAX_ROWS display_max_rows
           (PBool true) fresh).
  - reflexivity.
  - reflexivity.
  - reflexivity.
Defined.

Lemma set_option_log_level_witness :
  exists w',
    set_option "log_level" (PInt 10) fresh = (Ok tt, w') /\
    settings w' LOG_LEVEL = PInt 10 /\
    dx_log_level w' = PInt 10.
Proof.
  destruct (set_option_log_level "log_level" 10 fresh) as (w' & E & S & L & _).
  - reflexivity.
  - exists w'. repeat split; assumption.
Defined.

Lemma set_option_log_level_partial_witness :
  exists w',
    set_option "log_level" (PStr "10") fresh
    = (Raise (LoggingError (PStr "10")), w') /\
    settings w' LOG_LEVEL = PInt 10 /\
    dx_log_level w' = dx_log_level fresh.
Proof.
  apply (set_option_log_level_partial "log_level" (PStr "10") 10 fresh).
  - reflexivity.
  - reflexivity.
  - reflexivity.
Defined.


Lemma set_option_display_mode_witness :
  exists w',
    set_option "display_mode" (PStr "plain") fresh = (Ok tt, w') /\
    settings w' DISPLAY_MODE = PMode plain /\
    formatters w' = formatters fresh ++ [reset] /\
    (forall g, g <> DISPLAY_MODE ->
       settings w' g = after_resets (mode_resets reset) (settings fresh) g) /\
    (forall k, pandas w' k =
       default (pandas fresh k) (last_reset (mode_resets reset) (pd_field k))) /\
    dx_log_level w' =
      default (dx_log_level fresh) (last_reset (mode_resets reset) LOG_LEVEL).
Proof.
  exact (set_option_display_mode runtime_str_is_value "display_mode"
           (PStr "plain") fresh eq_refl).
Defined.


Lemma list_renderables_rejected_witness :
  set_option "renderable_objects" (PList [PType "int"]) fresh
  = (Raise (ValidationError RENDERABLE_OBJECTS RaisedTypeError), fresh).
Proof.
  apply (list_renderables_rejected "renderable_objects" [PType "int"] fresh).
  reflexivity.
Defined.



Lemma add_renderable_type_twice_witness :
  exists w2,
    add_renderable_type (PList [PType "int"])
      (snd (add_renderable_type (PList [PType "int"]) fresh)) = (Ok tt, w2) /\
    forall g, settings w2 g
              = settings (snd (add_renderable_type (PList [PType "int"]) fresh)) g.
Proof.
  apply (add_renderable_type_twice [] [PType "int"] fresh).
  - reflexivity.
  - reflexivity.
  - reflexivity.
Defined.

Lemma add_renderable_type_unhashable_witness :
  exists w' S',
    add_renderable_type
      (PList ([PType "int"] ++ PList [PType "str"] :: [PType "float"])) fresh
    = (Raise PyTypeError, w') /\
    settings w' RENDERABLE_OBJECTS = PSet S' /\
    (forall y, In y S' <-> In y [] \/ In y [PType "int"]) /\
    (forall g, g <> RENDERABLE_OBJECTS -> settings w' g = settings fresh g).
Proof.
  apply (add_renderable_type_unhashable [] [PType "int"] (PList [PType "str"])
           [PType "float"] fresh).
  - reflexivity.
  - reflexivity.
  - reflexivity.
Defined.

Lemma add_renderable_type_keeps_valid_witness :
  fst (add_renderable_type (PList [PType "int"; PType "int"]) fresh) = Ok tt /\
  valid (settings (snd (add_renderable_type (PList [PType "int"; PType "int"]) fresh)))
  = true.
Proof.
  apply (add_renderable_type_keeps_valid [PType "int"; PType "int"] fresh).
  - reflexivity.
  - reflexivity.
  - reflexivity.
Defined.

Lemma settings_context_block_not_run_witness :
  settings_context [("display_max_rows", PInt (-1))] failing_block fresh
  = settings_context [("display_max_rows", PInt (-1))] (ret tt) fresh.
Proof.
  apply (settings_context_block_not_run [("display_max_rows", PInt (-1))]
           failing_block (ret tt) fresh
           (ValidationError DISPLAY_MAX_ROWS MustBeNonNegative)).
  reflexivity.
Defined.

Lemma settings_context_outcome_witness :
  fst (settings_context rows_5 failing_block fresh)
  = fst (scope_block rows_5 failing_block fresh).
Proof.
  apply (settings_context_outcome runtime_str_is_value rows_5 failing_block fresh).
  reflexivity.
Defined.

Lemma settings_context_exit_effects_witness :
  refused_on_entry rows_5 = false /\
  dx_log_level (snd (settings_context rows_5 (ret tt) fresh))
  = settings fresh LOG_LEVEL /\
  exists m,
    settings fresh DISPLAY_MODE = PMode m /\
    formatters (snd (settings_context rows_5 (ret tt) fresh))
    = formatters (snd (scope_block rows_5 (ret tt) fresh)) ++ [mode_call m].
Proof.
  split; [reflexivity|].
  exact (settings_context_exit_effects runtime_str_is_value rows_5 (ret tt) fresh
           (fst (settings_context rows_5 (ret tt) fresh))
           (snd (settings_context rows_5 (ret tt) fresh))
           eq_refl (surjective_pairing _)).
Defined.

Lemma settings_context_keeps_valid_witness :
  valid (settings (snd (settings_context enhanced_rows_5 (ret tt) fresh))) = true.
Proof.
  apply (settings_context_keeps_valid enhanced_rows_5 (ret tt) fresh
           (fst (settings_context enhanced_rows_5 (ret tt) fresh))).
  - intros w1 r1 w2 H1 H2. injection H2 as _ <-. exact H1.
  - reflexivity.
  - apply surjective_pairing.
Defined.

Lemma set_option_limit_not_comparable_witness :
  set_option "display_max_rows" PNone fresh
  = (Raise (ValidationError DISPLAY_MAX_ROWS RaisedTypeError), fresh).
Proof.
  apply (set_option_limit_not_comparable "display_max_rows" DISPLAY_MAX_ROWS
           PNone fresh).
  - reflexivity.
  - left. reflexivity.
  - reflexivity.
Defined.

Lemma set_option_table_schema_witness :
  set_option "html_table_schema" (PStr "true") fresh
  = (Raise (ValidationError HTML_TABLE_SCHEMA EngineRejected), fresh).
Proof.
  exact (set_option_table_schema "html_table_schema" (PStr "true") fresh eq_refl).
Defined.
